(** * Text-to-Speech API: the view layer of [text_to_speech/views.py]

    A shallow embedding of the request handlers of the Text-to-Speech API
    ([views.py], [serializers.py], [urls.py]) and the properties of its
    validation, language detection, voice-file and endpoint logic.

    Python strings are sequences of Unicode code points ([list N]); the
    request payload is a dictionary ([gmap string _]); the files under
    [voice/] are a finite map from paths to bytes; the table of
    [Text_to_speech] rows is a list.  Handlers run in a state-and-exception
    monad over that world. *)

From Stdlib Require Import NArith Ascii String.
From stdpp Require Import base option list strings gmap pretty.

Local Open Scope string_scope.
Local Open Scope list_scope.

(** ** Python values *)

(** A [str]: its code points. *)
Abbreviation pystr := (list N).
Abbreviation bytes := (list Byte.byte).

(** An ASCII literal of the source as a [str]. *)
Definition lit (s : string) : pystr :=
  (fun a => N_of_ascii a) <$> list_ascii_of_string s.

(** A value that is a [str] or [None] (what [dict.get] returns). *)
Abbreviation value := (option pystr).

(** Truthiness, as used by [not text]: [None] and [""] are falsy. *)
Definition truthy (v : value) : bool :=
  match v with
  | None => false
  | Some [] => false
  | Some (_ :: _) => true
  end.

(** [str(v)] inside an f-string. *)
Definition format (v : value) : pystr :=
  match v with
  | None => lit "None"
  | Some s => s
  end.

(** ** Module constants of [views.py] *)

Definition MIN_TEXT_LENGTH : nat := 10.
Definition MIN_FILE_NAME_LENGTH : nat := 5.
Definition MAX_TEXT_LENGTH : nat := 700.
Definition MAX_FILE_NAME_LENGTH : nat := 20.

(** ** The persisted entity *)

(** Modelled from the spec: the model class [Text_to_speech] of [models.py]
    (imported by [views.py] and [serializers.py]); the spec's SpeechRecord
    has the text, the file name, the voice path, the creation timestamp and
    the owner.  [id] is the primary key the detail route looks rows up by. *)
Record Text_to_speech := {
  id : nat;
  text : pystr;
  file_name : pystr;
  voice : pystr;
  created_at : option Z;
  owner : option nat
}.

(** Attribute access by field name, as the serializer does it. *)
Definition getattr (r : Text_to_speech) (name : string) : option pystr :=
  if String.eqb name "text" then Some (text r)
  else if String.eqb name "file_name" then Some (file_name r)
  else if String.eqb name "voice" then Some (voice r)
  else None.

Definition setattr (r : Text_to_speech) (name : string) (v : pystr) : Text_to_speech :=
  if String.eqb name "text" then
    {| id := id r; text := v; file_name := file_name r; voice := voice r;
       created_at := created_at r; owner := owner r |}
  else if String.eqb name "file_name" then
    {| id := id r; text := text r; file_name := v; voice := voice r;
       created_at := created_at r; owner := owner r |}
  else if String.eqb name "voice" then
    {| id := id r; text := text r; file_name := file_name r; voice := v;
       created_at := created_at r; owner := owner r |}
  else r.

(** ** Exceptions and responses *)

(** The body of an error: a dictionary of messages. *)
Abbreviation detail := (list (string * string)).

Inductive exn :=
| serializers_ValidationError (d : detail)
    (* rest_framework.exceptions.ValidationError, re-exported by
       rest_framework.serializers; an APIException with status 400 *)
| django_ValidationError (message : string)
    (* django.core.exceptions.ValidationError, the name imported at the top
       of views.py; unrelated to the class above *)
| MethodNotAllowed (method : string)
| Http404
| MultipleObjectsReturned
| FileNotFoundError (path : pystr)
| OSError (path : pystr)
| gTTSError
| AttributeError (obj name : string)
| TypeError (message : string)
| BadHeaderError.

Inductive body :=
| Json (fields : list (string * pystr))
| Errors (d : detail)
| File (content : bytes).

(** The value of a response header as Django keeps it: the string itself
    when it is Latin-1, and otherwise its MIME encoded-word form
    ([email.header.Header(value, "utf-8").encode()]), which is kept here as
    the string it encodes. *)
Inductive header_value :=
| Latin1 (v : pystr)
| MimeEncoded (v : pystr).

Record Response := {
  data : body;
  status : nat;
  headers : list (string * header_value)
}.

Definition HTTP_200_OK : nat := 200.
Definition HTTP_201_CREATED : nat := 201.
Definition HTTP_400_BAD_REQUEST : nat := 400.

(** ** The world the handlers act on *)

Record World := {
  table : list Text_to_speech;           (* the rows of Text_to_speech *)
  next_id : nat;                         (* the table's id sequence *)
  db_writes : list Text_to_speech;       (* every row written, oldest first *)
  disk : gmap (list N) (list Byte.byte); (* the files, by path *)
  gtts_calls : list (pystr * string)     (* every synthesis call: text, lang *)
}.

(** ** A state and exception monad *)

Inductive outcome (A : Type) :=
| Return (a : A)
| Raise (e : exn).
Arguments Return {A} a.
Arguments Raise {A} e.

Definition M (A : Type) : Type := World -> outcome A * World.

Definition ret {A} (a : A) : M A := fun w => (Return a, w).
Definition raise {A} (e : exn) : M A := fun w => (Raise e, w).
Definition bind {A B} (m : M A) (k : A -> M B) : M B :=
  fun w =>
    match m w with
    | (Return a, w') => k a w'
    | (Raise e, w') => (Raise e, w')
    end.

Declare Scope py_scope.
Delimit Scope py_scope with py.
Notation "x <- m ;; k" := (bind m (fun x => k))
  (at level 100, m at next level, right associativity) : py_scope.
Notation "m ;;; k" := (bind m (fun _ => k))
  (at level 100, right associativity) : py_scope.
Local Open Scope py_scope.

(** [try: m  except cls as e: handler(e)  else: k(result)].  Only an
    exception that is an instance of [cls] is caught; [k] runs outside the
    protection of the [try]. *)
Definition try_except_else {A B} (m : M A) (cls : exn -> bool)
    (handler : exn -> M B) (k : A -> M B) : M B :=
  fun w =>
    match m w with
    | (Return a, w') => k a w'
    | (Raise e, w') => if cls e then handler e w' else (Raise e, w')
    end.

(** [isinstance(e, django.core.exceptions.ValidationError)]. *)
Definition isinstance_django_ValidationError (e : exn) : bool :=
  match e with
  | django_ValidationError _ => true
  | _ => false
  end.

(** [e.detail]: only the framework's exception has the attribute. *)
Definition get_detail (e : exn) : M detail :=
  match e with
  | serializers_ValidationError d => ret d
  | _ => raise (AttributeError "ValidationError" "detail")
  end.

(** [len(v)]. *)
Definition len (v : value) : M nat :=
  match v with
  | Some s => ret (length s)
  | None => raise (TypeError "object of type 'NoneType' has no len()")
  end.

(** ** [BaseTextToSpeechView.validate_request_data] *)

Definition validate_request_data (text file_name : value) : M unit :=
  if negb (truthy text) then
    raise (serializers_ValidationError [("error", "Текст не может быть пустым.")])
  else
    n <- len text ;;
    if (n <? MIN_TEXT_LENGTH)%nat then
      raise (serializers_ValidationError
        [("error", "Текст не может быть меньше " +:+ pretty MIN_TEXT_LENGTH +:+ " символов.")])
    else if negb (truthy file_name) then
      raise (serializers_ValidationError [("error", "Имя файла не может быть пустым.")])
    else
      m <- len file_name ;;
      if (m <? MIN_FILE_NAME_LENGTH)%nat then
        raise (serializers_ValidationError
          [("error", "Имя файла не может быть меньше " +:+ pretty MIN_FILE_NAME_LENGTH +:+ " символов.")])
      else if (MAX_TEXT_LENGTH <? n)%nat then
        raise (serializers_ValidationError
          [("error", "Текст не может быть больше " +:+ pretty MAX_TEXT_LENGTH +:+ " символов.")])
      else if (MAX_FILE_NAME_LENGTH <? m)%nat then
        raise (serializers_ValidationError
          [("error", "Имя файла не может быть больше " +:+ pretty MAX_FILE_NAME_LENGTH +:+ " символов.")])
      else ret tt.

(** ** The environment of the views

    What the handlers depend on and the sources do not fix: the synthesis
    engine behind [gTTS], whether a path can be opened for writing, the
    field validators and the defaults that [models.py] gives the
    [ModelSerializer] and new rows. *)
Record Env := {
  engine : pystr -> string -> option bytes;
    (* the audio of a text in a language; None when the engine fails *)
  open_wb_ok : pystr -> bool;
    (* whether open(path, "wb") succeeds *)
  run_validation : string -> value -> pystr + string;
    (* a serializer field on its input: the validated value or a message *)
  default_voice : pystr;
  auto_created_at : option Z;
  default_owner : option nat
    (* what a new row gets in the columns the serializer does not set *)
}.

(** ** The classes of [views.py] and attribute lookup on [self] *)

Inductive cls :=
| GenericAPIView | ListCreateAPIView | RetrieveUpdateDestroyAPIView | RetrieveAPIView
| BaseTextToSpeechView | TextToSpeechView | TextToSpeechDetailView | DownloadVoiceView.

Definition bases (c : cls) : list cls :=
  match c with
  | BaseTextToSpeechView => [GenericAPIView]
  | TextToSpeechView => [BaseTextToSpeechView; ListCreateAPIView]
  | TextToSpeechDetailView => [BaseTextToSpeechView; RetrieveUpdateDestroyAPIView]
  | DownloadVoiceView => [RetrieveAPIView]
  | ListCreateAPIView | RetrieveUpdateDestroyAPIView | RetrieveAPIView => [GenericAPIView]
  | GenericAPIView => []
  end.

(** The methods a class body of [views.py] defines; the framework's generic
    views define none of these names. *)
Definition defines (c : cls) : list string :=
  match c with
  | BaseTextToSpeechView => ["validate_request_data"]
  | TextToSpeechView => ["user_text"; "post"]
  | TextToSpeechDetailView => ["update_voice"; "put"]
  | DownloadVoiceView => ["retrieve"]
  | _ => []
  end.

Definition class_name (c : cls) : string :=
  match c with
  | GenericAPIView => "GenericAPIView"
  | ListCreateAPIView => "ListCreateAPIView"
  | RetrieveUpdateDestroyAPIView => "RetrieveUpdateDestroyAPIView"
  | RetrieveAPIView => "RetrieveAPIView"
  | BaseTextToSpeechView => "BaseTextToSpeechView"
  | TextToSpeechView => "TextToSpeechView"
  | TextToSpeechDetailView => "TextToSpeechDetailView"
  | DownloadVoiceView => "DownloadVoiceView"
  end.

(** The class, its bases and theirs: where an attribute of [self] is looked for. *)
Definition ancestors (c : cls) : list cls :=
  c :: bases c ++ (b ← bases c; bases b).

Definition hasattr (c : cls) (name : string) : bool :=
  existsb (fun k => existsb (String.eqb name) (defines k)) (ancestors c).

(** ** Language detection: [re.search(r"[\u0400-\u04ff]|[\u0500-\u052f]", text)] *)

(** A character class [[lo-hi]]. *)
Definition in_class (lo hi c : N) : bool := ((lo <=? c) && (c <=? hi))%N.

(** One character against the alternation of the two classes. *)
Definition cyrillic (c : N) : bool :=
  in_class 0x0400 0x04ff c || in_class 0x0500 0x052f c.

(** [re.search] for a one-character pattern: the leftmost matching
    character of the text, if there is one. *)
Definition re_search (p : N -> bool) (s : pystr) : option N := List.find p s.

Definition detect_lang (t : pystr) : string :=
  match re_search cyrillic t with
  | Some _match => "ru"
  | None => "en"
  end.

(** ** The database and the file system *)

(** [get_object_or_404(queryset, field=value)]: [queryset.get] with its
    [DoesNotExist] turned into [Http404]. *)
Definition get_object_or_404 (P : Text_to_speech -> Prop) `{!forall r, Decision (P r)}
    : M Text_to_speech :=
  fun w =>
    match filter P (table w) with
    | [] => (Raise Http404, w)
    | [r] => (Return r, w)
    | _ :: _ :: _ => (Raise MultipleObjectsReturned, w)
    end.

(** [self.get_object()] of the detail route: a fresh instance, read from the
    table by primary key, on every call. *)
Definition get_object (pk : nat) : M Text_to_speech :=
  get_object_or_404 (fun r => id r = pk).

(** [instance.save()] of a row that has a primary key: an UPDATE. *)
Definition save (r : Text_to_speech) : M unit :=
  fun w =>
    (Return tt,
     {| table := (fun r0 => if decide (id r0 = id r) then r else r0) <$> table w;
        next_id := next_id w;
        db_writes := db_writes w ++ [r];
        disk := disk w;
        gtts_calls := gtts_calls w |}).

(** [open(path, "rb")] and reading the file. *)
Definition open_rb (path : pystr) : M bytes :=
  fun w =>
    match disk w !! path with
    | Some content => (Return content, w)
    | None => (Raise (FileNotFoundError path), w)
    end.

Section Views.

Variable env : Env.

(** [Model.objects.create] on the validated data: an INSERT. *)
Definition objects_create (validated : list (string * pystr)) : M Text_to_speech :=
  fun w =>
    let blank := {| id := next_id w; text := []; file_name := []; voice := default_voice env;
                    created_at := auto_created_at env; owner := default_owner env |} in
    let r := foldl (fun r kv => setattr r kv.1 kv.2) blank validated in
    (Return r,
     {| table := table w ++ [r];
        next_id := S (next_id w);
        db_writes := db_writes w ++ [r];
        disk := disk w;
        gtts_calls := gtts_calls w |}).

(** [gTTS(text=text, lang=lang)] and [tts.write_to_fp(voice_bytes)]. *)
Definition gTTS (t : pystr) (lang : string) : M bytes :=
  fun w =>
    let w' := {| table := table w; next_id := next_id w; db_writes := db_writes w;
                 disk := disk w; gtts_calls := gtts_calls w ++ [(t, lang)] |} in
    match engine env t lang with
    | Some audio => (Return audio, w')
    | None => (Raise gTTSError, w')
    end.

(** [with open(path, "wb") as f: f.write(content)]. *)
Definition open_wb_write (path : pystr) (content : bytes) : M unit :=
  fun w =>
    if open_wb_ok env path then
      (Return tt,
       {| table := table w; next_id := next_id w; db_writes := db_writes w;
          disk := <[path := content]> (disk w); gtts_calls := gtts_calls w |})
    else (Raise (OSError path), w).

(** ** [TextToSpeechView.user_text] *)

Definition voice_path_of (file_name : value) : pystr :=
  (lit "voice/" ++ format file_name ++ lit ".mp3")%list.

Definition user_text (file_name text : value) : M pystr :=
  match text with
  | None => raise (TypeError "expected string or bytes-like object")
  | Some t =>
      let lang := detect_lang t in
      voice_bytes <- gTTS t lang ;;
      let voice_path := voice_path_of file_name in
      (open_wb_write voice_path voice_bytes ;;;
       ret voice_path)
  end.

(** [self.user_text(...)]: the method is found only on a class that has it. *)
Definition self_user_text (self : cls) (file_name text : value) : M pystr :=
  if hasattr self "user_text" then user_text file_name text
  else raise (AttributeError (class_name self) "user_text").

(** ** [TextToSpeechSerializer] and the generic create and update *)

(** [Meta.fields] of [serializers.py]. *)
Definition Meta_fields : list string := ["text"; "file_name"].

(** [serializer.is_valid(raise_exception=True)]: each declared field is run
    on its entry of the payload; keys that are not declared are ignored. *)
Fixpoint run_fields (fields : list string) (payload : gmap string (list N))
    : list (string * string) * list (string * pystr) :=
  match fields with
  | [] => ([], [])
  | f :: rest =>
      let '(errs, vals) := run_fields rest payload in
      match run_validation env f (payload !! f) with
      | inl v => (errs, (f, v) :: vals)
      | inr msg => ((f, msg) :: errs, vals)
      end
  end.

Definition is_valid (payload : gmap string (list N)) : M (list (string * pystr)) :=
  match run_fields Meta_fields payload with
  | ([], validated) => ret validated
  | (errs, _) => raise (serializers_ValidationError errs)
  end.

(** [serializer.data]: the declared fields of the instance. *)
Definition to_representation (r : Text_to_speech) : list (string * pystr) :=
  omap (fun f => (fun v => (f, v)) <$> getattr r f) Meta_fields.

(** [CreateModelMixin.create], what [super().post] runs. *)
Definition create (payload : gmap string (list N)) : M Response :=
  validated <- is_valid payload ;;
  instance <- objects_create validated ;;
  ret {| data := Json (to_representation instance); status := HTTP_201_CREATED; headers := [] |}.

(** [UpdateModelMixin.update], what [super().put] runs. *)
Definition update (pk : nat) (payload : gmap string (list N)) : M Response :=
  instance <- get_object pk ;;
  validated <- is_valid payload ;;
  let instance := foldl (fun r kv => setattr r kv.1 kv.2) instance validated in
  (save instance ;;;
   ret {| data := Json (to_representation instance); status := HTTP_200_OK; headers := [] |}).

(** ** [TextToSpeechView.post] *)

Definition post (payload : gmap string (list N)) : M Response :=
  let text := payload !! "text" in
  let file_name := payload !! "file_name" in
  try_except_else (validate_request_data text file_name)
    isinstance_django_ValidationError
    (fun e => d <- get_detail e ;;
              ret {| data := Errors d; status := HTTP_400_BAD_REQUEST; headers := [] |})
    (fun _ =>
       voice_path <- user_text file_name text ;;
       let payload := <["voice" := voice_path]> payload in
       create payload).

(** ** [TextToSpeechDetailView] *)

Definition update_voice (self : cls) (pk : nat) (file_name text : value) : M unit :=
  voice_path <- self_user_text self file_name text ;;
  obj <- get_object pk ;;
  let _assigned := setattr obj "voice" voice_path in
  obj' <- get_object pk ;;
  save obj'.

(** The exception classes that the module [rest_framework.serializers]
    binds: it imports [ErrorDetail] and [ValidationError] from
    [rest_framework.exceptions] and no other; [MethodNotAllowed] is a name
    of [rest_framework.exceptions] only. *)
Definition serializers_exceptions : list string := ["ErrorDetail"; "ValidationError"].

(** [raise serializers.MethodNotAllowed("PUT")]: the attribute is looked up
    on the module first. *)
Definition raise_serializers_MethodNotAllowed {A} (method : string) : M A :=
  if existsb (String.eqb "MethodNotAllowed") serializers_exceptions
  then raise (MethodNotAllowed method)
  else raise (AttributeError "rest_framework.serializers" "MethodNotAllowed").

Definition put (self : cls) (pk : nat) (payload : gmap string (list N)) : M Response :=
  let text := payload !! "text" in
  let file_name := payload !! "file_name" in
  try_except_else (validate_request_data text file_name)
    isinstance_django_ValidationError
    (fun e => d <- get_detail e ;;
              ret {| data := Errors d; status := HTTP_400_BAD_REQUEST; headers := [] |})
    (fun _ =>
       obj <- get_object pk ;;
       if bool_decide (created_at obj <> None) then raise_serializers_MethodNotAllowed "PUT"
       else
         response <- update pk payload ;;
         (update_voice self pk file_name text ;;;
          ret response)).

(** ** [DownloadVoiceView.retrieve] *)

(** [response[header] = value]: Django refuses a value with a carriage
    return or a line feed, keeps a Latin-1 value as it is and MIME-encodes
    any other. *)
Definition convert_to_charset (v : pystr) : M header_value :=
  if existsb (fun c => N.eqb c 10 || N.eqb c 13) v then raise BadHeaderError
  else if forallb (fun c => (c <=? 255)%N) v then ret (Latin1 v)
  else ret (MimeEncoded v).

(** The f-string of the header: [attachment; filename="<name>.mp3"]. *)
Definition attachment (name : pystr) : pystr :=
  lit "attachment; filename=" ++ [34%N] ++ name ++ lit ".mp3" ++ [34%N].

Definition retrieve (name : pystr) : M Response :=
  text_to_speech <- get_object_or_404 (fun r => file_name r = name) ;;
  let voice_path := voice text_to_speech in
  content <- open_rb voice_path ;;
  disposition <- convert_to_charset (attachment (file_name text_to_speech)) ;;
  ret {| data := File content; status := HTTP_200_OK;
         headers := [("Content-Disposition", disposition)] |}.

(** ** The framework around a handler

    [APIView.dispatch] passes an exception of the handler to the exception
    handler of the framework: the exceptions of the API and [Http404]
    become responses with their status; any other exception is raised
    again, and the request ends as a server error. *)
Definition quoted (s : string) : string :=
  String (ascii_of_nat 34) s +:+ String (ascii_of_nat 34) EmptyString.

Definition exception_handler (e : exn) : option Response :=
  match e with
  | serializers_ValidationError d => Some {| data := Errors d; status := 400; headers := [] |}
  | MethodNotAllowed method =>
      Some {| data := Errors [("detail", "Method " +:+ quoted method +:+ " not allowed.")];
              status := 405; headers := [] |}
  | Http404 => Some {| data := Errors [("detail", "Not found.")]; status := 404; headers := [] |}
  | _ => None
  end.

Definition dispatch (handler : M Response) : M Response :=
  fun w =>
    match handler w with
    | (Return r, w') => (Return r, w')
    | (Raise e, w') =>
        match exception_handler e with
        | Some r => (Return r, w')
        | None => (Raise e, w')
        end
    end.

End Views.

(** ** The validation rules as the specification lists them *)

Inductive failure :=
| TextEmpty | TextShort | FileNameEmpty | FileNameShort | TextLong | FileNameLong.

Definition message (k : failure) : string :=
  match k with
  | TextEmpty => "Текст не может быть пустым."
  | TextShort => "Текст не может быть меньше 10 символов."
  | FileNameEmpty => "Имя файла не может быть пустым."
  | FileNameShort => "Имя файла не может быть меньше 5 символов."
  | TextLong => "Текст не может быть больше 700 символов."
  | FileNameLong => "Имя файла не может быть больше 20 символов."
  end.

(** The length of a value, an absent one counting as empty. *)
Definition size (v : value) : nat :=
  match v with
  | Some s => length s
  | None => 0
  end.

(** The six checks in the order of the specification: each is a condition
    and the failure it stands for. *)
Definition checks (text file_name : value) : list (bool * failure) :=
  [ (bool_decide (size text = 0), TextEmpty);
    (bool_decide (size text < 10), TextShort);
    (bool_decide (size file_name = 0), FileNameEmpty);
    (bool_decide (size file_name < 5), FileNameShort);
    (bool_decide (700 < size text), TextLong);
    (bool_decide (20 < size file_name), FileNameLong) ].

(** Evaluation in order, stopping at the first check that fails. *)
Fixpoint first_failure (cs : list (bool * failure)) : option failure :=
  match cs with
  | [] => None
  | (true, k) :: _ => Some k
  | (false, _) :: rest => first_failure rest
  end.

(** The payload passes validation. *)
Definition valid_lengths (text file_name : value) : Prop :=
  exists t f, text = Some t /\ file_name = Some f /\
    10 <= length t <= 700 /\ 5 <= length f <= 20.

(** ** A sample deployment

    An engine that always answers, a writable [voice/] directory, fields
    that accept any string that is present, rows stamped at creation. *)
Definition sample_audio (t : pystr) : bytes :=
  (fun c => default Byte.x00 (Byte.of_N (c `mod` 256)%N)) <$> t.

Definition sample_env : Env :=
  {| engine := fun t lang => Some (sample_audio t);
     open_wb_ok := fun path => true;
     run_validation := fun name v =>
       match v with
       | Some s => inl s
       | None => inr "This field is required."
       end;
     default_voice := [];
     auto_created_at := Some 1700000000%Z;
     default_owner := None |}.

Definition empty_world : World :=
  {| table := []; next_id := 1; db_writes := []; disk := ∅; gtts_calls := [] |}.

Definition request (text file_name : pystr) : gmap string (list N) :=
  <["text" := text]> (<["file_name" := file_name]> ∅).

(** A row created on the sample deployment, with its voice file or without. *)
Definition greet_row : Text_to_speech :=
  {| id := 1; text := lit "Hello world, this is a test"; file_name := lit "greet1";
     voice := lit "voice/greet1.mp3"; created_at := Some 1700000000%Z; owner := None |}.

Definition stored_world : World :=
  {| table := [greet_row]; next_id := 2; db_writes := [greet_row];
     disk := {[ lit "voice/greet1.mp3" := sample_audio (lit "Hello world, this is a test") ]};
     gtts_calls := [(lit "Hello world, this is a test", "en")] |}.

Definition orphan_world : World :=
  {| table := [greet_row]; next_id := 2; db_writes := [greet_row];
     disk := ∅;
     gtts_calls := [(lit "Hello world, this is a test", "en")] |}.

(** A row whose file name has a line feed in it ("ab", LF, "cd"), with its
    voice file. *)
Definition line_feed_row : Text_to_speech :=
  {| id := 1; text := lit "Hello world, this is a test";
     file_name := lit "ab" ++ [10%N] ++ lit "cd";
     voice := lit "voice/line.mp3"; created_at := Some 1700000000%Z; owner := None |}.

Definition line_feed_world : World :=
  {| table := [line_feed_row]; next_id := 2; db_writes := [line_feed_row];
     disk := {[ lit "voice/line.mp3" := sample_audio (lit "Hello world, this is a test") ]};
     gtts_calls := [(lit "Hello world, this is a test", "en")] |}.

(** A row whose file name is Cyrillic, with its voice file. *)
Definition cyrillic_row : Text_to_speech :=
  {| id := 1; text := lit "Hello world, this is a test";
     file_name := replicate 6 0x0430%N;
     voice := lit "voice/cyr.mp3"; created_at := Some 1700000000%Z; owner := None |}.

Definition cyrillic_world : World :=
  {| table := [cyrillic_row]; next_id := 2; db_writes := [cyrillic_row];
     disk := {[ lit "voice/cyr.mp3" := sample_audio (lit "Hello world, this is a test") ]};
     gtts_calls := [(lit "Hello world, this is a test", "en")] |}.

(** A row that has no creation timestamp. *)
Definition draft_row : Text_to_speech :=
  {| id := 1; text := lit "Hello world, this is a test"; file_name := lit "greet1";
     voice := lit "voice/greet1.mp3"; created_at := None; owner := None |}.

Definition draft_world : World :=
  {| table := [draft_row]; next_id := 2; db_writes := [draft_row];
     disk := {[ lit "voice/greet1.mp3" := sample_audio (lit "Hello world, this is a test") ]};
     gtts_calls := [(lit "Hello world, this is a test", "en")] |}.

(** ** The handlers [TextToSpeechDetailView] inherits unchanged

    The class overrides [put] only; PATCH and DELETE reach the handlers of
    [RetrieveUpdateDestroyAPIView]. *)

Section Inherited.

Variable env : Env.

(** [is_valid] of a serializer built with [partial=True]: a declared field
    that the payload does not have is skipped. *)
Fixpoint run_fields_partial (fields : list string) (payload : gmap string (list N))
    : list (string * string) * list (string * pystr) :=
  match fields with
  | [] => ([], [])
  | f :: rest =>
      let '(errs, vals) := run_fields_partial rest payload in
      match payload !! f with
      | None => (errs, vals)
      | Some v =>
          match run_validation env f (Some v) with
          | inl v' => (errs, (f, v') :: vals)
          | inr msg => ((f, msg) :: errs, vals)
          end
      end
  end.

Definition is_valid_partial (payload : gmap string (list N)) : M (list (string * pystr)) :=
  match run_fields_partial Meta_fields payload with
  | ([], validated) => ret validated
  | (errs, _) => raise (serializers_ValidationError errs)
  end.

(** [UpdateModelMixin.partial_update], what [patch] runs. *)
Definition partial_update (pk : nat) (payload : gmap string (list N)) : M Response :=
  instance <- get_object pk ;;
  validated <- is_valid_partial payload ;;
  let instance := foldl (fun r kv => setattr r kv.1 kv.2) instance validated in
  (save instance ;;;
   ret {| data := Json (to_representation instance); status := HTTP_200_OK; headers := [] |}).

Definition patch (pk : nat) (payload : gmap string (list N)) : M Response :=
  partial_update pk payload.

End Inherited.

(** [instance.delete()]: a DELETE of the row.  Nothing in the views or in
    the serializer removes the voice file of the row. *)
Definition perform_destroy (r : Text_to_speech) : M unit :=
  fun w =>
    (Return tt,
     {| table := filter (fun r0 => id r0 <> id r) (table w);
        next_id := next_id w; db_writes := db_writes w;
        disk := disk w; gtts_calls := gtts_calls w |}).

Definition HTTP_204_NO_CONTENT : nat := 204.

(** [DestroyModelMixin.destroy], what DELETE runs; the response has no
    content. *)
Definition destroy (pk : nat) : M Response :=
  instance <- get_object pk ;;
  (perform_destroy instance ;;;
   ret {| data := Json []; status := HTTP_204_NO_CONTENT; headers := [] |}).

(** ** [urlpatterns] of [urls.py]

    A path is tried against the three routes in order.  The converter
    [int] takes a non-empty run of the digits 0 to 9, [str] a non-empty run
    of characters other than the slash; the route must match the whole
    path. *)

Inductive route :=
| text_to_speech_list
| text_to_speech_detail (pk : nat)
| download_voice (file_name : pystr).

Definition slash : N := 47.

Fixpoint strip_prefix (p s : pystr) : option pystr :=
  match p, s with
  | [], _ => Some s
  | a :: p', b :: s' => if N.eqb a b then strip_prefix p' s' else None
  | _ :: _, [] => None
  end.

(** The longest prefix of the characters in the class, and what follows. *)
Fixpoint span (p : N -> bool) (s : pystr) : pystr * pystr :=
  match s with
  | [] => ([], [])
  | c :: s' =>
      if p c then let '(seg, rest) := span p s' in (c :: seg, rest)
      else ([], s)
  end.

(** A converter segment followed by the closing slash and the end. *)
Definition segment (p : N -> bool) (s : pystr) : option pystr :=
  match span p s with
  | (c :: seg, [sl]) => if N.eqb sl slash then Some (c :: seg) else None
  | _ => None
  end.

Definition is_digit (c : N) : bool := ((48 <=? c) && (c <=? 57))%N.

(** [int(s)] of a run of digits. *)
Definition int_of_digits (s : pystr) : nat :=
  foldl (fun acc c => 10 * acc + N.to_nat (c - 48)) 0 s.

Definition resolve (path : pystr) : option route :=
  if bool_decide (path = lit "text-to-speech/") then Some text_to_speech_list
  else
    match strip_prefix (lit "text-to-speech/") path ≫= segment is_digit with
    | Some digits => Some (text_to_speech_detail (int_of_digits digits))
    | None =>
        match strip_prefix (lit "download-voice/") path
                ≫= segment (fun c => negb (N.eqb c slash)) with
        | Some name => Some (download_voice name)
        | None => None
        end
    end.

(** ** [CustomObtainAuthToken.post] *)

Module Auth.

Record User := { pk : nat; username : pystr }.

(** A row of the framework's token table: one token per user. *)
Record Token := { key : string; created : Z }.

Record TokenResponse := {
  token : string;
  user_id : nat;
  user_name : pystr;
  note : string
}.

Section Obtain.

(** The serializer of the credentials (the framework's, by
    [serializer_class]) and the generator of a new key are not in the
    sources. *)
Variable authenticate : gmap string (list N) -> User + list (string * string).
Variable generate_key : gmap nat Token -> string.

(** [Token.objects.get_or_create(user=user)], the tokens kept by user id:
    the token and whether it was created, and the table afterwards. *)
Definition get_or_create (now : Z) (user : User) (tokens : gmap nat Token)
    : Token * bool * gmap nat Token :=
  match tokens !! pk user with
  | Some t => (t, false, tokens)
  | None =>
      let t := {| key := generate_key tokens; created := now |} in
      (t, true, <[pk user := t]> tokens)
  end.

(** [post]: [now] is what [timezone.now()] reads during the request. *)
Definition post (payload : gmap string (list N)) (now : Z) (tokens : gmap nat Token)
    : outcome TokenResponse * gmap nat Token :=
  match authenticate payload with
  | inr errors => (Raise (serializers_ValidationError errors), tokens)
  | inl user =>
      let '(t, was_created, tokens) := get_or_create now user tokens in
      if was_created then
        (Return {| token := key t; user_id := pk user; user_name := username user;
                   note := "Token created" |}, tokens)
      else
        let t := {| key := key t; created := now |} in
        (Return {| token := key t; user_id := pk user; user_name := username user;
                   note := "Token refreshed" |},
         <[pk user := t]> tokens)
  end.

End Obtain.

End Auth.

(** Deployments that fail: the engine is down; [voice/] cannot be written;
    the model caps the text at 20 characters. *)
Definition engine_down_env : Env :=
  {| engine := fun t lang => None;
     open_wb_ok := open_wb_ok sample_env;
     run_validation := run_validation sample_env;
     default_voice := default_voice sample_env;
     auto_created_at := auto_created_at sample_env;
     default_owner := default_owner sample_env |}.

Definition read_only_env : Env :=
  {| engine := engine sample_env;
     open_wb_ok := fun path => false;
     run_validation := run_validation sample_env;
     default_voice := default_voice sample_env;
     auto_created_at := auto_created_at sample_env;
     default_owner := default_owner sample_env |}.

Definition short_text_env : Env :=
  {| engine := engine sample_env;
     open_wb_ok := open_wb_ok sample_env;
     run_validation := fun name v =>
       match v with
       | Some s =>
           if String.eqb name "text" && (20 <? length s)%nat
           then inr "Ensure this field has no more than 20 characters."
           else inl s
       | None => inr "This field is required."
       end;
     default_voice := default_voice sample_env;
     auto_created_at := auto_created_at sample_env;
     default_owner := default_owner sample_env |}.

(** A sample login: one account, and a fixed key for a new token. *)
Definition alice : Auth.User := {| Auth.pk := 7; Auth.username := lit "alice" |}.

Definition sample_authenticate (payload : gmap string (list N))
    : Auth.User + list (string * string) :=
  if bool_decide (payload !! "username" = Some (lit "alice")
                  /\ payload !! "password" = Some (lit "wonderland"))
  then inl alice
  else inr [("non_field_errors", "Unable to log in with provided credentials.")].

Definition sample_generate_key (tokens : gmap nat Auth.Token) : string :=
  "9944b09199c62bcf9418ad846dd0e4bbdfc6ee4b".

Definition alice_login : gmap string (list N) :=
  <["username" := lit "alice"]> (<["password" := lit "wonderland"]> ∅).

(** * Properties *)

(** ** Validation *)

Lemma truthy_size (v : value) : truthy v = negb (bool_decide (size v = 0)).
Proof. destruct v as [[|c s]|]; reflexivity. Qed.

Lemma len_size (v : value) (w : World) :
  truthy v = true -> len v w = (Return (size v), w).
Proof. destruct v as [s|]; [reflexivity | discriminate]. Qed.

(** The handler agrees with the ordered list of checks, and leaves the
    world alone. *)
Lemma validate_request_data_first_failure (text file_name : value) (w : World) :
  validate_request_data text file_name w =
    (match first_failure (checks text file_name) with
     | Some k => Raise (serializers_ValidationError [("error", message k)])
     | None => Return tt
     end, w).
Proof.
  unfold validate_request_data, checks, bind.
  rewrite (truthy_size text).
  destruct (bool_decide (size text = 0)) eqn:E1; cbn [negb first_failure]; [reflexivity|].
  rewrite len_size by (rewrite truthy_size, E1; reflexivity).
  unfold MIN_TEXT_LENGTH, MIN_FILE_NAME_LENGTH, MAX_TEXT_LENGTH, MAX_FILE_NAME_LENGTH.
  destruct (Nat.ltb_spec (size text) 10) as [H2|H2].
  { rewrite bool_decide_eq_true_2 by lia. reflexivity. }
  rewrite (bool_decide_eq_false_2 (size text < 10)) by lia. cbn [first_failure].
  rewrite (truthy_size file_name).
  destruct (bool_decide (size file_name = 0)) eqn:E3; cbn [negb first_failure]; [reflexivity|].
  rewrite len_size by (rewrite truthy_size, E3; reflexivity).
  destruct (Nat.ltb_spec (size file_name) 5) as [H4|H4].
  { rewrite bool_decide_eq_true_2 by lia. reflexivity. }
  rewrite (bool_decide_eq_false_2 (size file_name < 5)) by lia. cbn [first_failure].
  destruct (Nat.ltb_spec 700 (size text)) as [H5|H5].
  { rewrite bool_decide_eq_true_2 by lia. reflexivity. }
  rewrite (bool_decide_eq_false_2 (700 < size text)) by lia. cbn [first_failure].
  destruct (Nat.ltb_spec 20 (size file_name)) as [H6|H6].
  { rewrite bool_decide_eq_true_2 by lia. reflexivity. }
  rewrite (bool_decide_eq_false_2 (20 < size file_name)) by lia. reflexivity.
Qed.

Lemma first_failure_None (text file_name : value) :
  first_failure (checks text file_name) = None <-> valid_lengths text file_name.
Proof.
  unfold checks, valid_lengths. cbn [first_failure]. split.
  - repeat case_bool_decide; try discriminate. intros _.
    destruct text as [t|]; [|simpl in *; lia].
    destruct file_name as [f|]; [|simpl in *; lia].
    exists t, f. simpl in *. repeat split; lia.
  - intros (t & f & -> & -> & Ht & Hf). simpl.
    repeat case_bool_decide; try lia. reflexivity.
Qed.

Lemma validate_request_data_valid (text file_name : value) (w : World) :
  valid_lengths text file_name ->
  validate_request_data text file_name w = (Return tt, w).
Proof.
  intros H. rewrite validate_request_data_first_failure.
  apply first_failure_None in H. rewrite H. reflexivity.
Qed.

Lemma validate_request_data_invalid (text file_name : value) (w : World) :
  ~ valid_lengths text file_name ->
  exists k, validate_request_data text file_name w =
              (Raise (serializers_ValidationError [("error", message k)]), w).
Proof.
  intros H. rewrite validate_request_data_first_failure.
  destruct (first_failure (checks text file_name)) as [k|] eqn:E.
  - exists k. reflexivity.
  - apply first_failure_None in E. contradiction.
Qed.

(** C1: [validate_request_data] raises the error of the first failing check
    in the order text empty or absent, text shorter than 10, file name
    empty or absent, file name shorter than 5, text longer than 700, file
    name longer than 20; it returns without error exactly when
    10 <= len(text) <= 700 and 5 <= len(file_name) <= 20; and it changes
    nothing in the world. *)
Theorem validate_request_data_order (text file_name : value) (w : World) :
  (validate_request_data text file_name w).1 =
    match first_failure (checks text file_name) with
    | Some k => Raise (serializers_ValidationError [("error", message k)])
    | None => Return tt
    end
  /\ ((validate_request_data text file_name w).1 = Return tt <->
        exists t f, text = Some t /\ file_name = Some f /\
          10 <= length t <= 700 /\ 5 <= length f <= 20)
  /\ (validate_request_data text file_name w).2 = w.
Proof.
  rewrite validate_request_data_first_failure. cbn [fst snd].
  split; [reflexivity|]. split; [|reflexivity].
  rewrite <- (first_failure_None text file_name : _ <-> valid_lengths _ _).
  destruct (first_failure (checks text file_name)); split; congruence.
Qed.

(** ** The create endpoint *)

Lemma post_invalid (env : Env) (payload : gmap string (list N)) (w : World) :
  ~ valid_lengths (payload !! "text") (payload !! "file_name") ->
  exists k, post env payload w =
              (Raise (serializers_ValidationError [("error", message k)]), w).
Proof.
  intros H. destruct (validate_request_data_invalid _ _ w H) as [k Hk].
  exists k. unfold post, try_except_else. rewrite Hk. reflexivity.
Qed.

Lemma post_valid (env : Env) (payload : gmap string (list N)) (w : World) :
  valid_lengths (payload !! "text") (payload !! "file_name") ->
  post env payload w =
    (voice_path <- user_text env (payload !! "file_name") (payload !! "text") ;;
     create env (<["voice" := voice_path]> payload)) w.
Proof.
  intros H. unfold post, try_except_else.
  rewrite (validate_request_data_valid _ _ w H). reflexivity.
Qed.

(** C3: a create request whose text or file name fails validation ends in
    the validation error, which the framework answers with status 400; no
    synthesis call is made and no file is written: the world is unchanged. *)
Theorem post_invalid_no_side_effect (env : Env) (payload : gmap string (list N)) (w : World) :
  ~ valid_lengths (payload !! "text") (payload !! "file_name") ->
  exists d,
    post env payload w = (Raise (serializers_ValidationError d), w)
    /\ dispatch (post env payload) w =
         (Return {| data := Errors d; status := 400; headers := [] |}, w)
    /\ gtts_calls (post env payload w).2 = gtts_calls w
    /\ disk (post env payload w).2 = disk w
    /\ table (post env payload w).2 = table w.
Proof.
  intros H. destruct (post_invalid env payload w H) as [k Hk].
  exists [("error", message k)]. unfold dispatch. rewrite Hk. cbn [snd exception_handler].
  repeat split.
Qed.

Lemma post_invalid_no_side_effect_witness :
  ~ valid_lengths (request (lit "too short") (lit "abcde") !! "text")
                  (request (lit "too short") (lit "abcde") !! "file_name")
  /\ exists d,
       post sample_env (request (lit "too short") (lit "abcde")) empty_world =
         (Raise (serializers_ValidationError d), empty_world).
Proof.
  assert (H : ~ valid_lengths (request (lit "too short") (lit "abcde") !! "text")
                              (request (lit "too short") (lit "abcde") !! "file_name")).
  { intros (t & f & Ht & Hf & Hlt & Hlf). vm_compute in Ht. injection Ht as <-.
    vm_compute in Hlt. lia. }
  split; [exact H|].
  destruct (post_invalid_no_side_effect sample_env _ empty_world H) as (d & Hd & _).
  exists d. exact Hd.
Defined.

(** C10: the exception of [validate_request_data] is the framework's
    [serializers.ValidationError], not an instance of the
    [django.core.exceptions.ValidationError] the [except] clause names; for
    every invalid input it leaves [post] as raised, and [post] never
    answers through the 400 branch of its handler: a response it returns
    has status 201. *)
Theorem post_validation_error_propagates (env : Env) (payload : gmap string (list N)) (w : World) :
  (forall e, (validate_request_data (payload !! "text") (payload !! "file_name") w).1 = Raise e ->
     (exists d, e = serializers_ValidationError d)
     /\ isinstance_django_ValidationError e = false
     /\ post env payload w = (Raise e, w))
  /\ (forall resp, (post env payload w).1 = Return resp -> status resp = HTTP_201_CREATED).
Proof.
  split.
  - intros e He. rewrite validate_request_data_first_failure in He. cbn [fst] in He.
    destruct (first_failure (checks (payload !! "text") (payload !! "file_name")))
      as [k|] eqn:Ek; [|discriminate].
    injection He as <-. split; [eauto|]. split; [reflexivity|].
    unfold post, try_except_else. rewrite validate_request_data_first_failure, Ek.
    reflexivity.
  - intros resp Hr.
    destruct (first_failure (checks (payload !! "text") (payload !! "file_name")))
      as [k|] eqn:Ek.
    + unfold post, try_except_else in Hr.
      rewrite validate_request_data_first_failure, Ek in Hr. discriminate.
    + apply first_failure_None in Ek. rewrite (post_valid env payload w Ek) in Hr.
      unfold bind, create, bind, ret in Hr.
      repeat (match type of Hr with
              | context [match ?x with _ => _ end] => destruct x eqn:?
              end; try discriminate).
      cbn in Hr. injection Hr as <-. reflexivity.
Qed.

Lemma post_validation_error_propagates_witness :
  post sample_env (request (lit "too short") (lit "abcde")) empty_world =
    (Raise (serializers_ValidationError [("error", message TextShort)]), empty_world).
Proof.
  apply (proj1 (post_validation_error_propagates sample_env
                  (request (lit "too short") (lit "abcde")) empty_world)).
  vm_compute. reflexivity.
Defined.

(** ** Language detection *)

Lemma cyrillic_spec (c : N) :
  cyrillic c = true <->
  ((0x0400 <= c <= 0x04ff) \/ (0x0500 <= c <= 0x052f))%N.
Proof.
  unfold cyrillic, in_class.
  rewrite orb_true_iff, !andb_true_iff, !N.leb_le. tauto.
Qed.

Lemma detect_lang_ru (t : pystr) :
  detect_lang t = "ru" <-> exists c, In c t /\ cyrillic c = true.
Proof.
  unfold detect_lang, re_search. destruct (find cyrillic t) as [c|] eqn:E.
  - split; [intros _|reflexivity]. exists c. apply (find_some _ _ E).
  - split; [discriminate|]. intros (c & Hin & Hc).
    rewrite (find_none _ _ E c Hin) in Hc. discriminate.
Qed.

Lemma detect_lang_two_valued (t : pystr) :
  detect_lang t = "ru" \/ detect_lang t = "en".
Proof. unfold detect_lang. destruct (re_search cyrillic t); auto. Qed.

Lemma user_text_gtts_call (env : Env) (file_name : value) (t : pystr) (w : World) :
  gtts_calls (user_text env file_name (Some t) w).2 = gtts_calls w ++ [(t, detect_lang t)].
Proof.
  unfold user_text, bind, gTTS.
  destruct (engine env t (detect_lang t)); [|reflexivity].
  unfold open_wb_write. cbn [fst snd].
  destruct (open_wb_ok env (voice_path_of file_name)); reflexivity.
Qed.

(** C4: the detected language is "ru" exactly when the text has a character
    in U+0400..U+04FF or U+0500..U+052F, and "en" otherwise; [user_text]
    calls the synthesis with the text and that language; so a text of 15
    Cyrillic characters is synthesized as "ru" and a text of ASCII letters
    as "en". *)
Theorem detect_lang_cyrillic (env : Env) (file_name : value) (t : pystr) (w : World) :
  (detect_lang t = "ru" <->
     exists c, c ∈ t /\ ((0x0400 <= c <= 0x04ff) \/ (0x0500 <= c <= 0x052f))%N)
  /\ (detect_lang t = "en" <->
       ~ exists c, c ∈ t /\ ((0x0400 <= c <= 0x04ff) \/ (0x0500 <= c <= 0x052f))%N)
  /\ gtts_calls (user_text env file_name (Some t) w).2
       = gtts_calls w ++ [(t, detect_lang t)]
  /\ (length t = 15 ->
       Forall (fun c => (0x0400 <= c <= 0x04ff) \/ (0x0500 <= c <= 0x052f))%N t ->
       gtts_calls (user_text env file_name (Some t) w).2 = gtts_calls w ++ [(t, "ru")])
  /\ (Forall (fun c => (65 <= c <= 90) \/ (97 <= c <= 122))%N t ->
       gtts_calls (user_text env file_name (Some t) w).2 = gtts_calls w ++ [(t, "en")]).
Proof.
  assert (Hru : detect_lang t = "ru" <->
     exists c, c ∈ t /\ ((0x0400 <= c <= 0x04ff) \/ (0x0500 <= c <= 0x052f))%N).
  { rewrite detect_lang_ru. split; intros (c & Hin & Hc); exists c.
    - split; [apply list_elem_of_In, Hin | apply cyrillic_spec, Hc].
    - split; [apply list_elem_of_In, Hin | apply cyrillic_spec, Hc]. }
  split; [exact Hru|]. split.
  { rewrite <- Hru. destruct (detect_lang_two_valued t) as [E|E]; rewrite E.
    - split; [discriminate | intros H; exfalso; apply H; reflexivity].
    - split; [intros _; discriminate | reflexivity]. }
  split; [apply user_text_gtts_call|]. split.
  - intros Hlen Hall. rewrite user_text_gtts_call.
    destruct t as [|c t']; [discriminate|].
    replace (detect_lang (c :: t')) with "ru"; [reflexivity|].
    symmetry. apply Hru. exists c. split; [left|].
    apply (Forall_inv Hall).
  - intros Hall. rewrite user_text_gtts_call.
    destruct (detect_lang_two_valued t) as [E|E]; rewrite E; [|reflexivity].
    apply Hru in E. destruct E as (c & Hin & Hc).
    rewrite Forall_forall in Hall. specialize (Hall c Hin). lia.
Qed.

Lemma detect_lang_cyrillic_witness :
  gtts_calls (user_text sample_env (Some (lit "abcde")) (Some (replicate 15 0x0410%N)) empty_world).2
    = [(replicate 15 0x0410%N, "ru")]
  /\ gtts_calls (user_text sample_env (Some (lit "abcde")) (Some (lit "HelloWorldAgain")) empty_world).2
    = [(lit "HelloWorldAgain", "en")].
Proof.
  split.
  - apply (proj1 (proj2 (proj2 (proj2
             (detect_lang_cyrillic sample_env (Some (lit "abcde"))
                (replicate 15 0x0410%N) empty_world))))).
    + reflexivity.
    + vm_compute. repeat constructor; discriminate.
  - apply (proj2 (proj2 (proj2 (proj2
             (detect_lang_cyrillic sample_env (Some (lit "abcde"))
                (lit "HelloWorldAgain") empty_world))))).
    vm_compute. repeat (constructor; [first [left; split; discriminate | right; split; discriminate]|]).
    constructor.
Defined.

(** ** The voice file *)

Lemma user_text_success (env : Env) (file_name : value) (t : pystr) (audio : bytes) (w : World) :
  engine env t (detect_lang t) = Some audio ->
  open_wb_ok env (voice_path_of file_name) = true ->
  user_text env file_name (Some t) w =
    (Return (voice_path_of file_name),
     {| table := table w; next_id := next_id w; db_writes := db_writes w;
        disk := <[voice_path_of file_name := audio]> (disk w);
        gtts_calls := gtts_calls w ++ [(t, detect_lang t)] |}).
Proof.
  intros He Ho. unfold user_text, bind, gTTS, open_wb_write, ret.
  rewrite He. cbn [fst snd]. rewrite Ho. reflexivity.
Qed.

(** C8: the audio of a file name is stored at "voice/" + file_name + ".mp3";
    a second store under the same file name returns the same path and
    replaces what the first one wrote, without an error. *)
Theorem user_text_path_overwrite (env : Env) (name t1 t2 : pystr) (a1 a2 : bytes) (w : World) :
  engine env t1 (detect_lang t1) = Some a1 ->
  engine env t2 (detect_lang t2) = Some a2 ->
  open_wb_ok env (lit "voice/" ++ name ++ lit ".mp3") = true ->
  let path := lit "voice/" ++ name ++ lit ".mp3" in
  let first := user_text env (Some name) (Some t1) w in
  let second := user_text env (Some name) (Some t2) first.2 in
  first.1 = Return path
  /\ disk first.2 = <[path := a1]> (disk w)
  /\ second.1 = Return path
  /\ disk second.2 = <[path := a2]> (disk w)
  /\ disk second.2 !! path = Some a2.
Proof.
  intros H1 H2 Ho path first second. subst first second.
  change (lit "voice/" ++ name ++ lit ".mp3") with (voice_path_of (Some name)) in *.
  subst path.
  rewrite (user_text_success env _ t1 a1 w H1 Ho). cbn [fst snd].
  rewrite (user_text_success env _ t2 a2 _ H2 Ho). cbn [fst snd disk].
  rewrite insert_insert_eq. repeat split. apply lookup_insert_eq.
Qed.

Lemma user_text_path_overwrite_witness :
  let first := user_text sample_env (Some (lit "greet1")) (Some (lit "first text here")) empty_world in
  let second := user_text sample_env (Some (lit "greet1")) (Some (lit "second text, longer")) first.2 in
  first.1 = Return (lit "voice/greet1.mp3")
  /\ second.1 = Return (lit "voice/greet1.mp3")
  /\ disk second.2 !! lit "voice/greet1.mp3" = Some (sample_audio (lit "second text, longer")).
Proof.
  pose proof (user_text_path_overwrite sample_env (lit "greet1") (lit "first text here")
                (lit "second text, longer") (sample_audio (lit "first text here"))
                (sample_audio (lit "second text, longer")) empty_world
                eq_refl eq_refl eq_refl) as H.
  cbv zeta in H. destruct H as (H1 & _ & H3 & _ & H5).
  cbv zeta. split; [exact H1|]. split; [exact H3 | exact H5].
Defined.

(** ** The response of a successful create *)

Lemma run_fields_accept (env : Env) (payload : gmap string (list N)) (vt vf : pystr) :
  run_validation env "text" (payload !! "text") = inl vt ->
  run_validation env "file_name" (payload !! "file_name") = inl vf ->
  run_fields env Meta_fields payload = ([], [("text", vt); ("file_name", vf)]).
Proof.
  intros Ht Hf. unfold Meta_fields. cbn [run_fields]. rewrite Hf, Ht. reflexivity.
Qed.

Lemma create_success (env : Env) (payload : gmap string (list N)) (vt vf : pystr) (w : World) :
  run_validation env "text" (payload !! "text") = inl vt ->
  run_validation env "file_name" (payload !! "file_name") = inl vf ->
  let row := {| id := next_id w; text := vt; file_name := vf; voice := default_voice env;
                created_at := auto_created_at env; owner := default_owner env |} in
  create env payload w =
    (Return {| data := Json [("text", vt); ("file_name", vf)];
               status := HTTP_201_CREATED; headers := [] |},
     {| table := table w ++ [row]; next_id := S (next_id w);
        db_writes := db_writes w ++ [row]; disk := disk w; gtts_calls := gtts_calls w |}).
Proof.
  intros Ht Hf row. unfold create, bind, is_valid.
  rewrite (run_fields_accept env payload vt vf Ht Hf). reflexivity.
Qed.

(** C9, as the code has it: a create request that passes validation,
    synthesis, the file write and the serializer is answered with status
    201 and the created record, but the body holds the fields [text] and
    [file_name] only; the voice path that [post] put into the payload is
    not a field of the serializer, so it is neither in the body nor in the
    row, although the file is on disk. *)
Theorem post_created_body_omits_voice (env : Env) (payload : gmap string (list N))
    (t f vt vf : pystr) (audio : bytes) (w : World) :
  payload !! "text" = Some t ->
  payload !! "file_name" = Some f ->
  10 <= length t <= 700 ->
  5 <= length f <= 20 ->
  engine env t (detect_lang t) = Some audio ->
  open_wb_ok env (lit "voice/" ++ f ++ lit ".mp3") = true ->
  run_validation env "text" (Some t) = inl vt ->
  run_validation env "file_name" (Some f) = inl vf ->
  let path := lit "voice/" ++ f ++ lit ".mp3" in
  let row := {| id := next_id w; text := vt; file_name := vf; voice := default_voice env;
                created_at := auto_created_at env; owner := default_owner env |} in
  (post env payload w).1 =
    Return {| data := Json [("text", vt); ("file_name", vf)]; status := 201; headers := [] |}
  /\ disk (post env payload w).2 !! path = Some audio
  /\ table (post env payload w).2 = table w ++ [row]
  /\ forall resp fields, (post env payload w).1 = Return resp -> data resp = Json fields ->
       forall v, ("voice", v) ∉ fields.
Proof.
  intros Ht Hf Hlt Hlf He Ho Hvt Hvf path row.
  assert (Hv : valid_lengths (payload !! "text") (payload !! "file_name")).
  { exists t, f. rewrite Ht, Hf. auto. }
  rewrite (post_valid env payload w Hv). unfold bind.
  rewrite Ht, Hf.
  change (lit "voice/" ++ f ++ lit ".mp3") with (voice_path_of (Some f)) in *.
  rewrite (user_text_success env (Some f) t audio w He Ho).
  rewrite (create_success env _ vt vf).
  - cbn [fst snd disk table]. split; [reflexivity|]. split; [apply lookup_insert_eq|].
    split; [reflexivity|].
    intros resp fields Hr Hd v Hin. injection Hr as <-. cbn [data] in Hd.
    injection Hd as <-. rewrite !elem_of_cons, elem_of_nil in Hin.
    destruct Hin as [H|[H|[]]]; discriminate H.
  - rewrite lookup_insert_ne by discriminate. rewrite Ht. exact Hvt.
  - rewrite lookup_insert_ne by discriminate. rewrite Hf. exact Hvf.
Qed.

Lemma post_created_body_omits_voice_witness :
  (post sample_env (request (lit "Hello world, this is a test") (lit "greet1")) empty_world).1 =
    Return {| data := Json [("text", lit "Hello world, this is a test");
                            ("file_name", lit "greet1")];
              status := 201; headers := [] |}
  /\ table (post sample_env (request (lit "Hello world, this is a test") (lit "greet1"))
              empty_world).2 =
      [{| id := 1; text := lit "Hello world, this is a test"; file_name := lit "greet1";
          voice := []; created_at := Some 1700000000%Z; owner := None |}].
Proof.
  pose proof (post_created_body_omits_voice sample_env
                (request (lit "Hello world, this is a test") (lit "greet1"))
                (lit "Hello world, this is a test") (lit "greet1")
                (lit "Hello world, this is a test") (lit "greet1")
                (sample_audio (lit "Hello world, this is a test")) empty_world
                eq_refl eq_refl) as H.
  cbv zeta in H.
  destruct H as (H1 & _ & H3 & _); try reflexivity; try (vm_compute; lia).
  split; [exact H1 | exact H3].
Defined.

(** ** The update endpoint *)

Lemma get_object_found (pk : nat) (r : Text_to_speech) (w : World) :
  filter (fun r => id r = pk) (table w) = [r] ->
  get_object pk w = (Return r, w).
Proof. intros H. unfold get_object, get_object_or_404. rewrite H. reflexivity. Qed.

Lemma put_valid (env : Env) (self : cls) (pk : nat) (payload : gmap string (list N))
    (r : Text_to_speech) (w : World) :
  valid_lengths (payload !! "text") (payload !! "file_name") ->
  filter (fun r => id r = pk) (table w) = [r] ->
  put env self pk payload w =
    (if bool_decide (created_at r <> None) then raise_serializers_MethodNotAllowed "PUT"
     else
       response <- update env pk payload ;;
       (update_voice env self pk (payload !! "file_name") (payload !! "text") ;;;
        ret response)) w.
Proof.
  intros Hv Hr. unfold put, try_except_else.
  rewrite (validate_request_data_valid _ _ w Hv).
  unfold bind at 1. rewrite (get_object_found pk r w Hr). reflexivity.
Qed.

(** C2, as the code has it: for a record whose [created_at] is set, a PUT
    whose payload passes [validate_request_data] is rejected and nothing is
    modified, whatever the serializer would say about the payload; but the
    rejection is not a method-not-allowed error.  The source raises
    [serializers.MethodNotAllowed], a name the module
    [rest_framework.serializers] does not have: the lookup itself ends in
    [AttributeError], which the framework does not turn into a response, so
    the request is not answered with status 405. *)
Theorem put_created_record_attribute_error (env : Env) (self : cls) (pk : nat)
    (payload : gmap string (list N)) (t f : pystr) (r : Text_to_speech) (w : World) :
  filter (fun r => id r = pk) (table w) = [r] ->
  created_at r <> None ->
  payload !! "text" = Some t ->
  payload !! "file_name" = Some f ->
  10 <= length t <= 700 ->
  5 <= length f <= 20 ->
  put env self pk payload w =
    (Raise (AttributeError "rest_framework.serializers" "MethodNotAllowed"), w)
  /\ dispatch (put env self pk payload) w =
       (Raise (AttributeError "rest_framework.serializers" "MethodNotAllowed"), w)
  /\ forall resp, (dispatch (put env self pk payload) w).1 <> Return resp.
Proof.
  intros Hr Hc Ht Hf Hlt Hlf.
  assert (Hv : valid_lengths (payload !! "text") (payload !! "file_name")).
  { exists t, f. rewrite Ht, Hf. auto. }
  assert (Hput : put env self pk payload w =
            (Raise (AttributeError "rest_framework.serializers" "MethodNotAllowed"), w)).
  { rewrite (put_valid env self pk payload r w Hv Hr).
    rewrite bool_decide_eq_true_2 by exact Hc. reflexivity. }
  split; [exact Hput|]. unfold dispatch. rewrite Hput. cbn [exception_handler fst].
  split; [reflexivity|]. intros resp. discriminate.
Qed.

Lemma put_created_record_attribute_error_witness :
  put sample_env TextToSpeechDetailView 1
      (request (lit "A new text for the record") (lit "greet2")) stored_world
    = (Raise (AttributeError "rest_framework.serializers" "MethodNotAllowed"), stored_world).
Proof.
  apply (put_created_record_attribute_error sample_env TextToSpeechDetailView 1
           (request (lit "A new text for the record") (lit "greet2"))
           (lit "A new text for the record") (lit "greet2") greet_row stored_world).
  - reflexivity.
  - discriminate.
  - reflexivity.
  - reflexivity.
  - vm_compute. lia.
  - vm_compute. lia.
Defined.

Lemma update_success (env : Env) (pk : nat) (payload : gmap string (list N))
    (vt vf : pystr) (r : Text_to_speech) (w : World) :
  filter (fun r => id r = pk) (table w) = [r] ->
  run_validation env "text" (payload !! "text") = inl vt ->
  run_validation env "file_name" (payload !! "file_name") = inl vf ->
  let r' := {| id := id r; text := vt; file_name := vf; voice := voice r;
               created_at := created_at r; owner := owner r |} in
  update env pk payload w =
    (Return {| data := Json [("text", vt); ("file_name", vf)];
               status := HTTP_200_OK; headers := [] |},
     {| table := (fun r0 => if decide (id r0 = id r) then r' else r0) <$> table w;
        next_id := next_id w; db_writes := db_writes w ++ [r'];
        disk := disk w; gtts_calls := gtts_calls w |}).
Proof.
  intros Hr Ht Hf r'. unfold update. unfold bind at 1.
  rewrite (get_object_found pk r w Hr). unfold bind at 1. unfold is_valid.
  rewrite (run_fields_accept env payload vt vf Ht Hf). reflexivity.
Qed.

(** C5, as the code has it: on an update that passes validation and the
    gate, the generic update persists the new text and file name, and then
    [update_voice] fails on [self.user_text], a method of the sibling class
    [TextToSpeechView] that [TextToSpeechDetailView] does not inherit: no
    synthesis call is made, no file is written, the voice path is not
    reassigned and no second save happens. *)
Theorem put_update_voice_unreached (env : Env) (pk : nat) (payload : gmap string (list N))
    (t f vt vf : pystr) (r : Text_to_speech) (w : World) :
  filter (fun r => id r = pk) (table w) = [r] ->
  created_at r = None ->
  payload !! "text" = Some t ->
  payload !! "file_name" = Some f ->
  10 <= length t <= 700 ->
  5 <= length f <= 20 ->
  run_validation env "text" (Some t) = inl vt ->
  run_validation env "file_name" (Some f) = inl vf ->
  let r' := {| id := id r; text := vt; file_name := vf; voice := voice r;
               created_at := created_at r; owner := owner r |} in
  put env TextToSpeechDetailView pk payload w =
    (Raise (AttributeError "TextToSpeechDetailView" "user_text"),
     {| table := (fun r0 => if decide (id r0 = id r) then r' else r0) <$> table w;
        next_id := next_id w; db_writes := db_writes w ++ [r'];
        disk := disk w; gtts_calls := gtts_calls w |}).
Proof.
  intros Hr Hc Ht Hf Hlt Hlf Hvt Hvf r'.
  assert (Hv : valid_lengths (payload !! "text") (payload !! "file_name")).
  { exists t, f. rewrite Ht, Hf. auto. }
  rewrite (put_valid env TextToSpeechDetailView pk payload r w Hv Hr).
  rewrite bool_decide_eq_false_2 by (rewrite Hc; intros H; apply H; reflexivity).
  unfold bind at 1. rewrite (update_success env pk payload vt vf r w Hr).
  - reflexivity.
  - rewrite Ht. exact Hvt.
  - rewrite Hf. exact Hvf.
Qed.

Lemma put_update_voice_unreached_witness :
  put sample_env TextToSpeechDetailView 1
      (request (lit "A new text for the record") (lit "greet2")) draft_world
  = (Raise (AttributeError "TextToSpeechDetailView" "user_text"),
     {| table := [{| id := 1; text := lit "A new text for the record";
                     file_name := lit "greet2"; voice := lit "voice/greet1.mp3";
                     created_at := None; owner := None |}];
        next_id := 2;
        db_writes := [draft_row;
                      {| id := 1; text := lit "A new text for the record";
                         file_name := lit "greet2"; voice := lit "voice/greet1.mp3";
                         created_at := None; owner := None |}];
        disk := disk draft_world;
        gtts_calls := gtts_calls draft_world |}).
Proof.
  apply (put_update_voice_unreached sample_env 1
           (request (lit "A new text for the record") (lit "greet2"))
           (lit "A new text for the record") (lit "greet2")
           (lit "A new text for the record") (lit "greet2") draft_row draft_world).
  - reflexivity.
  - reflexivity.
  - reflexivity.
  - reflexivity.
  - vm_compute. lia.
  - vm_compute. lia.
  - reflexivity.
  - reflexivity.
Defined.

(** Saving the row that is already in the table changes no row. *)
Lemma save_fresh_instance (pk : nat) (r : Text_to_speech) (l : list Text_to_speech) :
  filter (fun r => id r = pk) l = [r] ->
  (fun r0 => if decide (id r0 = id r) then r else r0) <$> l = l.
Proof.
  intros H.
  assert (Hid : id r = pk).
  { assert (Hin : r ∈ filter (fun r => id r = pk) l) by (rewrite H; left).
    apply list_elem_of_filter in Hin. tauto. }
  rewrite <- (list_fmap_id l) at 2. apply list_fmap_ext. intros i r0 Hi.
  case_decide as Hd; [|reflexivity].
  assert (Hin : r0 ∈ filter (fun r => id r = pk) l).
  { apply list_elem_of_filter. split; [congruence|].
    apply (list_elem_of_lookup_2 l i r0 Hi). }
  rewrite H in Hin. apply list_elem_of_singleton in Hin. symmetry. exact Hin.
Qed.

(** Even on a class that has [user_text], [update_voice] assigns the new
    path to one instance and saves another one, read afresh from the
    table: the rows stay as they were. *)
Lemma update_voice_saves_fresh_instance (env : Env) (self : cls) (pk : nat)
    (file_name : value) (t : pystr) (audio : bytes) (r : Text_to_speech) (w : World) :
  hasattr self "user_text" = true ->
  filter (fun r => id r = pk) (table w) = [r] ->
  engine env t (detect_lang t) = Some audio ->
  open_wb_ok env (voice_path_of file_name) = true ->
  update_voice env self pk file_name (Some t) w =
    (Return tt,
     {| table := table w; next_id := next_id w; db_writes := db_writes w ++ [r];
        disk := <[voice_path_of file_name := audio]> (disk w);
        gtts_calls := gtts_calls w ++ [(t, detect_lang t)] |}).
Proof.
  intros Hattr Hr He Ho. unfold update_voice, self_user_text. rewrite Hattr.
  unfold bind at 1. rewrite (user_text_success env file_name t audio w He Ho).
  unfold bind at 1.
  match goal with
  | |- context [get_object pk ?w1] => rewrite (get_object_found pk r w1 Hr)
  end.
  unfold bind at 1.
  match goal with
  | |- context [get_object pk ?w1] => rewrite (get_object_found pk r w1 Hr)
  end.
  unfold save. cbn [table next_id db_writes disk gtts_calls].
  rewrite (save_fresh_instance pk r (table w) Hr). reflexivity.
Qed.

(** ** The download endpoint *)

Lemma retrieve_found (name : pystr) (r : Text_to_speech) (w : World) :
  filter (fun r => file_name r = name) (table w) = [r] ->
  retrieve name w =
    (content <- open_rb (voice r) ;;
     disposition <- convert_to_charset (attachment (file_name r)) ;;
     ret {| data := File content; status := HTTP_200_OK;
            headers := [("Content-Disposition", disposition)] |}) w.
Proof.
  intros H. unfold retrieve. unfold bind at 1. unfold get_object_or_404.
  rewrite H. reflexivity.
Qed.

Lemma attachment_line_break (name : pystr) :
  existsb (fun c => N.eqb c 10 || N.eqb c 13) (attachment name)
  = existsb (fun c => N.eqb c 10 || N.eqb c 13) name.
Proof.
  unfold attachment. rewrite !existsb_app.
  change (existsb (fun c => N.eqb c 10 || N.eqb c 13) (lit "attachment; filename=")) with false.
  change (existsb (fun c => N.eqb c 10 || N.eqb c 13) (lit ".mp3")) with false.
  cbn [existsb N.eqb Pos.eqb orb]. rewrite !orb_false_r. reflexivity.
Qed.

Lemma attachment_latin1 (name : pystr) :
  forallb (fun c => (c <=? 255)%N) (attachment name) = forallb (fun c => (c <=? 255)%N) name.
Proof.
  unfold attachment. rewrite !forallb_app.
  change (forallb (fun c => (c <=? 255)%N) (lit "attachment; filename=")) with true.
  change (forallb (fun c => (c <=? 255)%N) (lit ".mp3")) with true.
  change (forallb (fun c => (c <=? 255)%N) [34%N]) with true.
  rewrite !andb_true_r. reflexivity.
Qed.

Lemma line_break_spec (name : pystr) :
  existsb (fun c => N.eqb c 10 || N.eqb c 13) name = true <-> (10%N ∈ name \/ 13%N ∈ name).
Proof.
  rewrite existsb_exists. split.
  - intros (c & Hin & Hc). apply list_elem_of_In in Hin. apply orb_true_iff in Hc.
    destruct Hc as [Hc|Hc]; apply N.eqb_eq in Hc; subst c; tauto.
  - intros [H|H]; apply list_elem_of_In in H; eexists; (split; [exact H|reflexivity]).
Qed.

Lemma latin1_spec (name : pystr) :
  forallb (fun c => (c <=? 255)%N) name = true <-> Forall (fun c => (c <= 255)%N) name.
Proof.
  rewrite forallb_forall, Forall_forall. split; intros H c Hc.
  - apply N.leb_le, H, list_elem_of_In, Hc.
  - apply N.leb_le, H, list_elem_of_In, Hc.
Qed.

(** The claim of an attachment for every file name with one record and an
    existing voice file fails on [line_feed_world]: the record is there,
    the file is there, and the request ends in [BadHeaderError] and not in
    a response. *)
Lemma retrieve_line_feed_name_no_attachment :
  filter (fun r => file_name r = file_name line_feed_row) (table line_feed_world)
    = [line_feed_row]
  /\ disk line_feed_world !! voice line_feed_row
       = Some (sample_audio (lit "Hello world, this is a test"))
  /\ dispatch (retrieve (file_name line_feed_row)) line_feed_world
       = (Raise BadHeaderError, line_feed_world)
  /\ ~ exists resp,
        (dispatch (retrieve (file_name line_feed_row)) line_feed_world).1 = Return resp.
Proof.
  split; [reflexivity|]. split; [reflexivity|]. split; [reflexivity|].
  intros (resp & H). vm_compute in H. discriminate H.
Qed.

(** C6, amended: a download of a file name that no record has ends in
    [Http404], answered with status 404 and not with a server error.  A
    download of a file name that exactly one record has, whose voice file
    exists, returns the file with the header
    [attachment; filename="<file_name>.mp3"] when the name is Latin-1 and
    has no carriage return or line feed; with the MIME-encoded form of that
    header when the name has no such break but is not Latin-1; and ends in
    [BadHeaderError], unhandled, when the name has a carriage return or a
    line feed. *)
Theorem retrieve_not_found_or_attachment (name : pystr) (w : World) :
  (filter (fun r => file_name r = name) (table w) = [] ->
     retrieve name w = (Raise Http404, w)
     /\ dispatch (retrieve name) w =
          (Return {| data := Errors [("detail", "Not found.")]; status := 404; headers := [] |},
           w))
  /\ (forall r content,
        filter (fun r => file_name r = name) (table w) = [r] ->
        disk w !! voice r = Some content ->
        (10%N ∉ name -> 13%N ∉ name -> Forall (fun c => (c <= 255)%N) name ->
           dispatch (retrieve name) w =
             (Return {| data := File content; status := 200;
                        headers := [("Content-Disposition",
                                     Latin1 (lit "attachment; filename=" ++ [34%N] ++ name
                                               ++ lit ".mp3" ++ [34%N]))] |}, w))
        /\ (10%N ∉ name -> 13%N ∉ name -> ~ Forall (fun c => (c <= 255)%N) name ->
             dispatch (retrieve name) w =
               (Return {| data := File content; status := 200;
                          headers := [("Content-Disposition",
                                       MimeEncoded (lit "attachment; filename=" ++ [34%N] ++ name
                                                      ++ lit ".mp3" ++ [34%N]))] |}, w))
        /\ (10%N ∈ name \/ 13%N ∈ name ->
             dispatch (retrieve name) w = (Raise BadHeaderError, w))).
Proof.
  split.
  - intros H.
    assert (Hr : retrieve name w = (Raise Http404, w)).
    { unfold retrieve, bind, get_object_or_404. rewrite H. reflexivity. }
    split; [exact Hr|]. unfold dispatch. rewrite Hr. reflexivity.
  - intros r content H Hd.
    assert (Hn : file_name r = name).
    { assert (Hin : r ∈ filter (fun r => file_name r = name) (table w)) by (rewrite H; left).
      apply list_elem_of_filter in Hin. tauto. }
    assert (Hret : retrieve name w =
              (disposition <- convert_to_charset (attachment name) ;;
               ret {| data := File content; status := HTTP_200_OK;
                      headers := [("Content-Disposition", disposition)] |}) w).
    { rewrite (retrieve_found name r w H). unfold bind at 1. unfold open_rb.
      rewrite Hd, Hn. reflexivity. }
    change (lit "attachment; filename=" ++ [34%N] ++ name ++ lit ".mp3" ++ [34%N])
      with (attachment name).
    unfold dispatch. rewrite Hret. unfold bind, convert_to_charset.
    rewrite attachment_line_break, attachment_latin1.
    split; [|split].
    + intros H10 H13 Hl.
      destruct (existsb (fun c => N.eqb c 10 || N.eqb c 13) name) eqn:E.
      { apply line_break_spec in E. tauto. }
      apply latin1_spec in Hl. rewrite Hl. reflexivity.
    + intros H10 H13 Hl.
      destruct (existsb (fun c => N.eqb c 10 || N.eqb c 13) name) eqn:E.
      { apply line_break_spec in E. tauto. }
      destruct (forallb (fun c => (c <=? 255)%N) name) eqn:El.
      { apply latin1_spec in El. contradiction. }
      reflexivity.
    + intros Hb. apply line_break_spec in Hb. rewrite Hb. reflexivity.
Qed.

Lemma retrieve_not_found_or_attachment_witness :
  dispatch (retrieve (lit "nobody")) stored_world =
    (Return {| data := Errors [("detail", "Not found.")]; status := 404; headers := [] |},
     stored_world)
  /\ dispatch (retrieve (lit "greet1")) stored_world =
       (Return {| data := File (sample_audio (lit "Hello world, this is a test"));
                  status := 200;
                  headers := [("Content-Disposition",
                               Latin1 (lit "attachment; filename=" ++ [34%N] ++ lit "greet1"
                                         ++ lit ".mp3" ++ [34%N]))] |}, stored_world)
  /\ dispatch (retrieve (replicate 6 0x0430%N)) cyrillic_world =
       (Return {| data := File (sample_audio (lit "Hello world, this is a test"));
                  status := 200;
                  headers := [("Content-Disposition",
                               MimeEncoded (lit "attachment; filename=" ++ [34%N]
                                              ++ replicate 6 0x0430%N
                                              ++ lit ".mp3" ++ [34%N]))] |}, cyrillic_world)
  /\ dispatch (retrieve (lit "ab" ++ [10%N] ++ lit "cd")) line_feed_world =
       (Raise BadHeaderError, line_feed_world).
Proof.
  split; [|split; [|split]].
  - apply (proj1 (retrieve_not_found_or_attachment (lit "nobody") stored_world)).
    reflexivity.
  - apply (proj1 (proj2 (retrieve_not_found_or_attachment (lit "greet1") stored_world)
                    greet_row _ eq_refl eq_refl)).
    + intros H. apply list_elem_of_In in H. vm_compute in H. intuition discriminate.
    + intros H. apply list_elem_of_In in H. vm_compute in H. intuition discriminate.
    + apply latin1_spec. reflexivity.
  - apply (proj1 (proj2 (proj2 (retrieve_not_found_or_attachment (replicate 6 0x0430%N)
                                  cyrillic_world) cyrillic_row _ eq_refl eq_refl))).
    + intros H. apply list_elem_of_In in H. vm_compute in H. intuition discriminate.
    + intros H. apply list_elem_of_In in H. vm_compute in H. intuition discriminate.
    + intros H. apply latin1_spec in H. discriminate H.
  - apply (proj2 (proj2 (proj2 (retrieve_not_found_or_attachment
                                  (lit "ab" ++ [10%N] ++ lit "cd") line_feed_world)
                                  line_feed_row _ eq_refl eq_refl))).
    left. apply list_elem_of_In. vm_compute. tauto.
Defined.

(** The claim of a 404 for a record whose voice file is missing fails on
    [orphan_world]: the record is there, the file is not, and the request
    does not end in a response at all. *)
Lemma retrieve_missing_file_not_404 :
  filter (fun r => file_name r = lit "greet1") (table orphan_world) = [greet_row]
  /\ disk orphan_world !! voice greet_row = None
  /\ ~ exists resp,
        (dispatch (retrieve (lit "greet1")) orphan_world).1 = Return resp
        /\ status resp = 404.
Proof.
  split; [reflexivity|]. split; [reflexivity|].
  intros (resp & H & _). vm_compute in H. discriminate H.
Qed.

(** C7, amended: for a record that exists alone under its file name and
    whose voice file is missing on disk, the download fails with the
    [FileNotFoundError] of [open]; neither the view nor the framework turns
    it into a response, so the request ends as an unhandled error and not
    as a 404; nothing is changed. *)
Theorem retrieve_missing_file_raises (name : pystr) (r : Text_to_speech) (w : World) :
  filter (fun r => file_name r = name) (table w) = [r] ->
  disk w !! voice r = None ->
  retrieve name w = (Raise (FileNotFoundError (voice r)), w)
  /\ exception_handler (FileNotFoundError (voice r)) = None
  /\ dispatch (retrieve name) w = (Raise (FileNotFoundError (voice r)), w).
Proof.
  intros H Hd.
  assert (Hr : retrieve name w = (Raise (FileNotFoundError (voice r)), w)).
  { rewrite (retrieve_found name r w H). unfold bind, open_rb. rewrite Hd. reflexivity. }
  split; [exact Hr|]. split; [reflexivity|]. unfold dispatch. rewrite Hr. reflexivity.
Qed.

Lemma retrieve_missing_file_raises_witness :
  dispatch (retrieve (lit "greet1")) orphan_world =
    (Raise (FileNotFoundError (lit "voice/greet1.mp3")), orphan_world).
Proof.
  apply (retrieve_missing_file_raises (lit "greet1") greet_row orphan_world); reflexivity.
Defined.

(** * Further properties of the views *)

(** ** Validation looks at lengths only *)

(** X1: [validate_request_data] depends on the lengths of the text and of
    the file name only: two payloads with the same lengths get the same
    verdict, whatever their characters are. *)
Theorem validate_request_data_length_only (t t' f f' : pystr) (w : World) :
  length t = length t' ->
  length f = length f' ->
  validate_request_data (Some t) (Some f) w = validate_request_data (Some t') (Some f') w.
Proof.
  intros Ht Hf. rewrite !validate_request_data_first_failure.
  unfold checks, size. rewrite Ht, Hf. reflexivity.
Qed.

Lemma validate_request_data_length_only_witness :
  validate_request_data (Some (lit "          ")) (Some (lit "../..")) empty_world
  = (Return tt, empty_world).
Proof.
  rewrite (validate_request_data_length_only (lit "          ") (lit "abcdefghij")
             (lit "../..") (lit "abcde") empty_world eq_refl eq_refl).
  reflexivity.
Defined.

(** ** Failures of the create endpoint after validation *)

Lemma valid_lengths_intro (payload : gmap string (list N)) (t f : pystr) :
  payload !! "text" = Some t ->
  payload !! "file_name" = Some f ->
  10 <= length t <= 700 ->
  5 <= length f <= 20 ->
  valid_lengths (payload !! "text") (payload !! "file_name").
Proof. intros Ht Hf Hlt Hlf. exists t, f. rewrite Ht, Hf. auto. Qed.

(** X4: when the synthesis engine fails on a valid create request, [post]
    ends in the engine's error, which the framework does not turn into a
    response; the call was made, but no file is written and no row is
    inserted. *)
Theorem post_engine_failure (env : Env) (payload : gmap string (list N))
    (t f : pystr) (w : World) :
  payload !! "text" = Some t ->
  payload !! "file_name" = Some f ->
  10 <= length t <= 700 ->
  5 <= length f <= 20 ->
  engine env t (detect_lang t) = None ->
  dispatch (post env payload) w =
    (Raise gTTSError,
     {| table := table w; next_id := next_id w; db_writes := db_writes w;
        disk := disk w; gtts_calls := gtts_calls w ++ [(t, detect_lang t)] |}).
Proof.
  intros Ht Hf Hlt Hlf He. unfold dispatch.
  rewrite (post_valid env payload w (valid_lengths_intro payload t f Ht Hf Hlt Hlf)).
  rewrite Ht, Hf. unfold bind, user_text, bind, gTTS. rewrite He. reflexivity.
Qed.

Lemma post_engine_failure_witness :
  dispatch (post engine_down_env (request (lit "Hello world, this is a test") (lit "greet1")))
    empty_world
  = (Raise gTTSError,
     {| table := []; next_id := 1; db_writes := []; disk := ∅;
        gtts_calls := [(lit "Hello world, this is a test", "en")] |}).
Proof.
  apply (post_engine_failure engine_down_env
           (request (lit "Hello world, this is a test") (lit "greet1"))
           (lit "Hello world, this is a test") (lit "greet1") empty_world);
    first [reflexivity | vm_compute; lia].
Defined.

(** X5: when the voice file cannot be opened for writing, [post] ends in
    the error of [open], unhandled; the synthesis call was made, no file is
    written and no row is inserted. *)
Theorem post_write_failure (env : Env) (payload : gmap string (list N))
    (t f : pystr) (audio : bytes) (w : World) :
  payload !! "text" = Some t ->
  payload !! "file_name" = Some f ->
  10 <= length t <= 700 ->
  5 <= length f <= 20 ->
  engine env t (detect_lang t) = Some audio ->
  open_wb_ok env (lit "voice/" ++ f ++ lit ".mp3") = false ->
  dispatch (post env payload) w =
    (Raise (OSError (lit "voice/" ++ f ++ lit ".mp3")),
     {| table := table w; next_id := next_id w; db_writes := db_writes w;
        disk := disk w; gtts_calls := gtts_calls w ++ [(t, detect_lang t)] |}).
Proof.
  intros Ht Hf Hlt Hlf He Ho. unfold dispatch.
  rewrite (post_valid env payload w (valid_lengths_intro payload t f Ht Hf Hlt Hlf)).
  rewrite Ht, Hf. unfold bind, user_text, bind, gTTS. rewrite He.
  unfold open_wb_write. cbn [fst snd].
  change (voice_path_of (Some f)) with (lit "voice/" ++ f ++ lit ".mp3").
  rewrite Ho. reflexivity.
Qed.

Lemma post_write_failure_witness :
  dispatch (post read_only_env (request (lit "Hello world, this is a test") (lit "greet1")))
    empty_world
  = (Raise (OSError (lit "voice/greet1.mp3")),
     {| table := []; next_id := 1; db_writes := []; disk := ∅;
        gtts_calls := [(lit "Hello world, this is a test", "en")] |}).
Proof.
  apply (post_write_failure read_only_env
           (request (lit "Hello world, this is a test") (lit "greet1"))
           (lit "Hello world, this is a test") (lit "greet1")
           (sample_audio (lit "Hello world, this is a test")) empty_world);
    first [reflexivity | vm_compute; lia].
Defined.

Lemma run_fields_insert_voice (env : Env) (payload : gmap string (list N)) (v : pystr) :
  run_fields env Meta_fields (<["voice" := v]> payload) = run_fields env Meta_fields payload.
Proof.
  unfold Meta_fields. cbn [run_fields].
  rewrite !lookup_insert_ne by discriminate. reflexivity.
Qed.

(** X6: the serializer runs after the voice file is written.  When it
    rejects a payload that passed [validate_request_data], the request ends
    in the serializer's validation error (status 400) and no row is
    inserted, but the audio file stays on disk. *)
Theorem post_serializer_rejects_after_write (env : Env) (payload : gmap string (list N))
    (t f : pystr) (audio : bytes) (err : string * string) (errs : list (string * string))
    (vals : list (string * pystr)) (w : World) :
  payload !! "text" = Some t ->
  payload !! "file_name" = Some f ->
  10 <= length t <= 700 ->
  5 <= length f <= 20 ->
  engine env t (detect_lang t) = Some audio ->
  open_wb_ok env (lit "voice/" ++ f ++ lit ".mp3") = true ->
  run_fields env Meta_fields payload = (err :: errs, vals) ->
  dispatch (post env payload) w =
    (Return {| data := Errors (err :: errs); status := 400; headers := [] |},
     {| table := table w; next_id := next_id w; db_writes := db_writes w;
        disk := <[lit "voice/" ++ f ++ lit ".mp3" := audio]> (disk w);
        gtts_calls := gtts_calls w ++ [(t, detect_lang t)] |}).
Proof.
  intros Ht Hf Hlt Hlf He Ho Hr. unfold dispatch.
  rewrite (post_valid env payload w (valid_lengths_intro payload t f Ht Hf Hlt Hlf)).
  rewrite Ht, Hf. unfold bind at 1.
  rewrite (user_text_success env (Some f) t audio w He Ho).
  unfold create, bind, is_valid. rewrite run_fields_insert_voice, Hr. reflexivity.
Qed.

Lemma post_serializer_rejects_after_write_witness :
  dispatch (post short_text_env (request (lit "Hello world, this is a test") (lit "greet1")))
    empty_world
  = (Return {| data := Errors [("text", "Ensure this field has no more than 20 characters.")];
               status := 400; headers := [] |},
     {| table := []; next_id := 1; db_writes := [];
        disk := <[lit "voice/greet1.mp3" := sample_audio (lit "Hello world, this is a test")]> ∅;
        gtts_calls := [(lit "Hello world, this is a test", "en")] |}).
Proof.
  apply (post_serializer_rejects_after_write short_text_env
           (request (lit "Hello world, this is a test") (lit "greet1"))
           (lit "Hello world, this is a test") (lit "greet1")
           (sample_audio (lit "Hello world, this is a test"))
           ("text", "Ensure this field has no more than 20 characters.") []
           [("file_name", lit "greet1")] empty_world);
    first [reflexivity | vm_compute; lia].
Defined.

(** ** Create, then download *)

Lemma post_success (env : Env) (payload : gmap string (list N))
    (t f vt vf : pystr) (audio : bytes) (w : World) :
  payload !! "text" = Some t ->
  payload !! "file_name" = Some f ->
  10 <= length t <= 700 ->
  5 <= length f <= 20 ->
  engine env t (detect_lang t) = Some audio ->
  open_wb_ok env (voice_path_of (Some f)) = true ->
  run_validation env "text" (Some t) = inl vt ->
  run_validation env "file_name" (Some f) = inl vf ->
  let row := {| id := next_id w; text := vt; file_name := vf; voice := default_voice env;
                created_at := auto_created_at env; owner := default_owner env |} in
  post env payload w =
    (Return {| data := Json [("text", vt); ("file_name", vf)];
               status := HTTP_201_CREATED; headers := [] |},
     {| table := table w ++ [row]; next_id := S (next_id w);
        db_writes := db_writes w ++ [row];
        disk := <[voice_path_of (Some f) := audio]> (disk w);
        gtts_calls := gtts_calls w ++ [(t, detect_lang t)] |}).
Proof.
  intros Ht Hf Hlt Hlf He Ho Hvt Hvf row.
  rewrite (post_valid env payload w (valid_lengths_intro payload t f Ht Hf Hlt Hlf)).
  rewrite Ht, Hf. unfold bind at 1.
  rewrite (user_text_success env (Some f) t audio w He Ho).
  rewrite (create_success env _ vt vf).
  - reflexivity.
  - rewrite lookup_insert_ne by discriminate. rewrite Ht. exact Hvt.
  - rewrite lookup_insert_ne by discriminate. rewrite Hf. exact Hvf.
Qed.



Lemma get_object_or_404_many (P : Text_to_speech -> Prop) `{!forall r, Decision (P r)}
    (w : World) :
  2 <= length (filter P (table w)) ->
  get_object_or_404 P w = (Raise MultipleObjectsReturned, w).
Proof.
  unfold get_object_or_404. destruct (filter P (table w)) as [|r1 [|r2 l]]; simpl; try lia.
  reflexivity.
Qed.

(** X8: file names are not kept unique.  After the same valid payload is
    created twice, two rows share the file name, and its download ends in
    [MultipleObjectsReturned], unhandled. *)
Theorem post_twice_then_retrieve_ambiguous (env : Env) (payload : gmap string (list N))
    (t f vt vf : pystr) (audio : bytes) (w : World) :
  payload !! "text" = Some t ->
  payload !! "file_name" = Some f ->
  10 <= length t <= 700 ->
  5 <= length f <= 20 ->
  engine env t (detect_lang t) = Some audio ->
  open_wb_ok env (lit "voice/" ++ f ++ lit ".mp3") = true ->
  run_validation env "text" (Some t) = inl vt ->
  run_validation env "file_name" (Some f) = inl vf ->
  let w1 := (post env payload w).2 in
  let w2 := (post env payload w1).2 in
  length (table w2) = 2 + length (table w)
  /\ dispatch (retrieve vf) w2 = (Raise MultipleObjectsReturned, w2).
Proof.
  intros Ht Hf Hlt Hlf He Ho Hvt Hvf w1 w2. subst w2 w1.
  change (lit "voice/" ++ f ++ lit ".mp3") with (voice_path_of (Some f)) in *.
  rewrite (post_success env payload t f vt vf audio w Ht Hf Hlt Hlf He Ho Hvt Hvf).
  cbn [snd].
  rewrite (post_success env payload t f vt vf audio _ Ht Hf Hlt Hlf He Ho Hvt Hvf).
  cbn [snd table next_id]. split.
  - rewrite !length_app. simpl. lia.
  - unfold dispatch, retrieve, bind. rewrite get_object_or_404_many; [reflexivity|].
    cbn [table]. rewrite !filter_app, !length_app.
    rewrite !filter_cons_True by reflexivity. simpl. lia.
Qed.

Lemma post_twice_then_retrieve_ambiguous_witness :
  dispatch (retrieve (lit "greet1"))
    (post sample_env (request (lit "Hello world, this is a test") (lit "greet1"))
       (post sample_env (request (lit "Hello world, this is a test") (lit "greet1"))
          empty_world).2).2
  = (Raise MultipleObjectsReturned,
     (post sample_env (request (lit "Hello world, this is a test") (lit "greet1"))
        (post sample_env (request (lit "Hello world, this is a test") (lit "greet1"))
           empty_world).2).2).
Proof.
  apply (post_twice_then_retrieve_ambiguous sample_env
           (request (lit "Hello world, this is a test") (lit "greet1"))
           (lit "Hello world, this is a test") (lit "greet1")
           (lit "Hello world, this is a test") (lit "greet1")
           (sample_audio (lit "Hello world, this is a test")) empty_world);
    first [reflexivity | vm_compute; lia].
Defined.

(** ** The order of the checks in [put] *)

Lemma put_invalid (env : Env) (self : cls) (pk : nat) (payload : gmap string (list N))
    (w : World) :
  ~ valid_lengths (payload !! "text") (payload !! "file_name") ->
  exists k, put env self pk payload w =
              (Raise (serializers_ValidationError [("error", message k)]), w).
Proof.
  intros H. destruct (validate_request_data_invalid _ _ w H) as [k Hk].
  exists k. unfold put, try_except_else. rewrite Hk. reflexivity.
Qed.

(** X9: [put] validates the payload before it looks the record up: an
    invalid payload ends in the validation error (status 400) even when no
    record has the given id, and a valid payload for an id that no record
    has ends in [Http404] (status 404); nothing is changed either way. *)
Theorem put_validation_before_lookup (env : Env) (self : cls) (pk : nat)
    (payload : gmap string (list N)) (w : World) :
  (~ valid_lengths (payload !! "text") (payload !! "file_name") ->
     exists d, dispatch (put env self pk payload) w =
                 (Return {| data := Errors d; status := 400; headers := [] |}, w))
  /\ (valid_lengths (payload !! "text") (payload !! "file_name") ->
       filter (fun r => id r = pk) (table w) = [] ->
       dispatch (put env self pk payload) w =
         (Return {| data := Errors [("detail", "Not found.")]; status := 404;
                    headers := [] |}, w)).
Proof.
  split.
  - intros H. destruct (put_invalid env self pk payload w H) as [k Hk].
    exists [("error", message k)]. unfold dispatch. rewrite Hk. reflexivity.
  - intros Hv Hnone. unfold dispatch, put, try_except_else.
    rewrite (validate_request_data_valid _ _ w Hv).
    unfold bind, get_object, get_object_or_404. rewrite Hnone. reflexivity.
Qed.

Lemma put_validation_before_lookup_witness :
  dispatch (put sample_env TextToSpeechDetailView 99
              (request (lit "short") (lit "greet1"))) stored_world
  = (Return {| data := Errors [("error", message TextShort)]; status := 400; headers := [] |},
     stored_world)
  /\ dispatch (put sample_env TextToSpeechDetailView 99
                 (request (lit "A new text for the record") (lit "greet1"))) stored_world
     = (Return {| data := Errors [("detail", "Not found.")]; status := 404; headers := [] |},
        stored_world).
Proof.
  split.
  - destruct (proj1 (put_validation_before_lookup sample_env TextToSpeechDetailView 99
                       (request (lit "short") (lit "greet1")) stored_world)) as [d Hd].
    + intros (t & f & Ht & _ & Hlt & _). vm_compute in Ht. injection Ht as <-.
      vm_compute in Hlt. lia.
    + rewrite Hd. vm_compute in Hd. injection Hd as <-. reflexivity.
  - apply (proj2 (put_validation_before_lookup sample_env TextToSpeechDetailView 99
                    (request (lit "A new text for the record") (lit "greet1")) stored_world)).
    + exists (lit "A new text for the record"), (lit "greet1").
      repeat split; vm_compute; lia.
    + reflexivity.
Defined.

(** ** [put] never returns *)

(** X10: the handler [put] of [TextToSpeechDetailView] never returns
    normally.  Whatever the payload, the id and the stored rows, it ends in
    an exception; it makes no synthesis call and writes no file; the rows
    are changed only in the case that ends in the [AttributeError] of the
    missing [user_text].  So no PUT is answered with the 200 of an update:
    the framework answers it 400 or 404, or it ends as an unhandled
    error. *)
Theorem put_never_returns (env : Env) (pk : nat) (payload : gmap string (list N))
    (w : World) :
  (exists e w',
     put env TextToSpeechDetailView pk payload w = (Raise e, w')
     /\ disk w' = disk w
     /\ gtts_calls w' = gtts_calls w
     /\ (e <> AttributeError "TextToSpeechDetailView" "user_text" -> w' = w))
  /\ (forall resp,
        (dispatch (put env TextToSpeechDetailView pk payload) w).1 = Return resp ->
        status resp = 400 \/ status resp = 404).
Proof.
  assert (Hput : exists e w',
     put env TextToSpeechDetailView pk payload w = (Raise e, w')
     /\ disk w' = disk w
     /\ gtts_calls w' = gtts_calls w
     /\ (e <> AttributeError "TextToSpeechDetailView" "user_text" -> w' = w)
     /\ (forall method, e <> MethodNotAllowed method)).
  { destruct (first_failure (checks (payload !! "text") (payload !! "file_name")))
      as [k|] eqn:Ek.
    - exists (serializers_ValidationError [("error", message k)]), w.
      unfold put, try_except_else. rewrite validate_request_data_first_failure, Ek.
      repeat split. discriminate.
    - apply first_failure_None in Ek.
      unfold put, try_except_else. rewrite (validate_request_data_valid _ _ w Ek).
      unfold bind at 1. unfold get_object, get_object_or_404.
      destruct (filter (fun r => id r = pk) (table w)) as [|r [|r' l]] eqn:Ef.
      { exists Http404, w. repeat split. discriminate. }
      2: { exists MultipleObjectsReturned, w. repeat split. discriminate. }
      destruct (bool_decide (created_at r <> None)).
      { exists (AttributeError "rest_framework.serializers" "MethodNotAllowed"), w.
        repeat split. discriminate. }
      unfold bind at 1. unfold update. unfold bind at 1.
      rewrite (get_object_found pk r w Ef). unfold bind at 1. unfold is_valid.
      destruct (run_fields env Meta_fields payload) as [[|err errs] vals].
      + eexists (AttributeError "TextToSpeechDetailView" "user_text"), _.
        split; [reflexivity|]. split; [reflexivity|]. split; [reflexivity|].
        split; [|discriminate]. intros H. contradiction H. reflexivity.
      + exists (serializers_ValidationError (err :: errs)), w. repeat split. discriminate. }
  destruct Hput as (e & w' & Hp & Hd & Hg & Hw & Hm).
  split; [exists e, w'; auto|].
  intros resp. unfold dispatch. rewrite Hp.
  destruct e; cbn [exception_handler fst]; try discriminate.
  - intros H. injection H as <-. left. reflexivity.
  - contradiction (Hm method). reflexivity.
  - intros H. injection H as <-. right. reflexivity.
Qed.

(** ** PATCH and DELETE on the detail route *)

(** X11: PATCH is not guarded.  [TextToSpeechDetailView] overrides [put]
    only, so a PATCH that carries a text runs the inherited partial update:
    the row is rewritten with the new text, whether or not it has a
    creation timestamp and whatever the length of the text, and the voice
    file is not regenerated. *)
Theorem patch_bypasses_gate (env : Env) (pk : nat) (payload : gmap string (list N))
    (t vt : pystr) (r : Text_to_speech) (w : World) :
  filter (fun r => id r = pk) (table w) = [r] ->
  payload !! "text" = Some t ->
  payload !! "file_name" = None ->
  run_validation env "text" (Some t) = inl vt ->
  let r' := {| id := id r; text := vt; file_name := file_name r; voice := voice r;
               created_at := created_at r; owner := owner r |} in
  dispatch (patch env pk payload) w =
    (Return {| data := Json [("text", vt); ("file_name", file_name r)];
               status := 200; headers := [] |},
     {| table := (fun r0 => if decide (id r0 = id r) then r' else r0) <$> table w;
        next_id := next_id w; db_writes := db_writes w ++ [r'];
        disk := disk w; gtts_calls := gtts_calls w |}).
Proof.
  intros Hr Ht Hf Hvt r'. unfold dispatch, patch, partial_update.
  unfold bind at 1. rewrite (get_object_found pk r w Hr).
  unfold bind at 1. unfold is_valid_partial, Meta_fields. cbn [run_fields_partial].
  rewrite Hf, Ht, Hvt. reflexivity.
Qed.

Lemma patch_bypasses_gate_witness :
  dispatch (patch sample_env 1 (<["text" := lit "hi"]> ∅)) stored_world
  = (Return {| data := Json [("text", lit "hi"); ("file_name", lit "greet1")];
               status := 200; headers := [] |},
     {| table := [{| id := 1; text := lit "hi"; file_name := lit "greet1";
                     voice := lit "voice/greet1.mp3"; created_at := Some 1700000000%Z;
                     owner := None |}];
        next_id := 2;
        db_writes := [greet_row;
                      {| id := 1; text := lit "hi"; file_name := lit "greet1";
                         voice := lit "voice/greet1.mp3"; created_at := Some 1700000000%Z;
                         owner := None |}];
        disk := disk stored_world; gtts_calls := gtts_calls stored_world |}).
Proof.
  apply (patch_bypasses_gate sample_env 1 (<["text" := lit "hi"]> ∅) (lit "hi") (lit "hi")
           greet_row stored_world); reflexivity.
Defined.

Lemma filter_out_only_match (P : Text_to_speech -> Prop) `{!forall r, Decision (P r)}
    (r : Text_to_speech) (l : list Text_to_speech) :
  filter P l = [r] ->
  filter P (filter (fun r0 => id r0 <> id r) l) = [].
Proof.
  intros Hone.
  destruct (filter P (filter (fun r0 => id r0 <> id r) l)) as [|x xs] eqn:E; [reflexivity|].
  assert (Hx : x ∈ filter P (filter (fun r0 => id r0 <> id r) l)) by (rewrite E; left).
  apply list_elem_of_filter in Hx. destruct Hx as [HP Hx].
  apply list_elem_of_filter in Hx. destruct Hx as [Hid Hx].
  assert (Hin : x ∈ filter P l) by (apply list_elem_of_filter; split; assumption).
  rewrite Hone in Hin. apply list_elem_of_singleton in Hin. subst x.
  contradiction Hid. reflexivity.
Qed.

Lemma destroy_found (pk : nat) (r : Text_to_speech) (w : World) :
  filter (fun r => id r = pk) (table w) = [r] ->
  destroy pk w =
    (Return {| data := Json []; status := HTTP_204_NO_CONTENT; headers := [] |},
     {| table := filter (fun r0 => id r0 <> id r) (table w);
        next_id := next_id w; db_writes := db_writes w;
        disk := disk w; gtts_calls := gtts_calls w |}).
Proof.
  intros Hr. unfold destroy. unfold bind at 1.
  rewrite (get_object_found pk r w Hr). reflexivity.
Qed.

(** X12: DELETE removes the row and answers 204, and leaves the voice file
    on disk; afterwards no row has the id, and the download of the file
    name, if the row was the only one under it, answers 404. *)
Theorem destroy_keeps_voice_file (pk : nat) (r : Text_to_speech) (w : World) :
  filter (fun r => id r = pk) (table w) = [r] ->
  let w' := (destroy pk w).2 in
  (destroy pk w).1 = Return {| data := Json []; status := 204; headers := [] |}
  /\ disk w' = disk w
  /\ filter (fun r => id r = pk) (table w') = []
  /\ (filter (fun r0 => file_name r0 = file_name r) (table w) = [r] ->
       dispatch (retrieve (file_name r)) w' =
         (Return {| data := Errors [("detail", "Not found.")]; status := 404;
                    headers := [] |}, w')).
Proof.
  intros Hr w'. subst w'. rewrite (destroy_found pk r w Hr). cbn [fst snd].
  split; [reflexivity|]. split; [reflexivity|]. cbn [table]. split.
  - apply (filter_out_only_match (fun r => id r = pk)). exact Hr.
  - intros Hn. unfold dispatch, retrieve, bind, get_object_or_404. cbn [table].
    rewrite (filter_out_only_match (fun r0 => file_name r0 = file_name r) r (table w) Hn).
    reflexivity.
Qed.

Lemma destroy_keeps_voice_file_witness :
  disk (destroy 1 stored_world).2 !! lit "voice/greet1.mp3"
    = Some (sample_audio (lit "Hello world, this is a test"))
  /\ (dispatch (retrieve (lit "greet1")) (destroy 1 stored_world).2).1
     = Return {| data := Errors [("detail", "Not found.")]; status := 404; headers := [] |}.
Proof.
  pose proof (destroy_keeps_voice_file 1 greet_row stored_world eq_refl) as H.
  cbv zeta in H. destruct H as (_ & Hd & _ & Hn). split.
  - rewrite Hd. reflexivity.
  - change (lit "greet1") with (file_name greet_row). rewrite (Hn eq_refl). reflexivity.
Defined.

(** ** The routes *)

Lemma strip_prefix_app (p s : pystr) : strip_prefix p (p ++ s) = Some s.
Proof.
  induction p as [|a p IH]; [reflexivity|].
  cbn [app strip_prefix]. rewrite N.eqb_refl. exact IH.
Qed.

Lemma strip_prefix_Some (p s rest : pystr) :
  strip_prefix p s = Some rest -> s = p ++ rest.
Proof.
  revert s. induction p as [|a p IH]; intros s H.
  - cbn in H. injection H as <-. reflexivity.
  - destruct s as [|b s]; [discriminate H|]. cbn [strip_prefix] in H.
    destruct (N.eqb_spec a b) as [<-|]; [|discriminate H].
    cbn [app]. f_equal. apply IH. exact H.
Qed.

Lemma span_spec (p : N -> bool) (s seg rest : pystr) :
  span p s = (seg, rest) ->
  s = seg ++ rest /\ Forall (fun c => p c = true) seg.
Proof.
  revert seg rest. induction s as [|c s IH]; intros seg rest H.
  - cbn in H. injection H as <- <-. split; [reflexivity|constructor].
  - cbn [span] in H. destruct (p c) eqn:Hc.
    + destruct (span p s) as [seg' rest'] eqn:E. injection H as <- <-.
      destruct (IH seg' rest' eq_refl) as [-> Hall].
      split; [reflexivity|]. constructor; assumption.
    + injection H as <- <-. split; [reflexivity|constructor].
Qed.

Lemma span_app_stop (p : N -> bool) (seg rest : pystr) (c : N) :
  Forall (fun c => p c = true) seg ->
  p c = false ->
  span p (seg ++ c :: rest) = (seg, c :: rest).
Proof.
  intros Hall Hc. induction Hall as [|x seg Hx Hall IH].
  - cbn [app span]. rewrite Hc. reflexivity.
  - cbn [app span]. rewrite Hx, IH. reflexivity.
Qed.

Lemma segment_spec (p : N -> bool) (s seg : pystr) :
  p slash = false ->
  segment p s = Some seg <->
  seg <> [] /\ Forall (fun c => p c = true) seg /\ s = seg ++ [slash].
Proof.
  intros Hp. unfold segment. split.
  - destruct (span p s) as [sg rest] eqn:E.
    destruct (span_spec p s sg rest E) as [-> Hall].
    destruct sg as [|c sg]; [discriminate|].
    destruct rest as [|sl [|x rest]]; try discriminate.
    destruct (N.eqb_spec sl slash) as [->|]; [|discriminate].
    intros H. injection H as <-. split; [discriminate|]. split; [exact Hall|reflexivity].
  - intros (Hne & Hall & ->). rewrite (span_app_stop p seg [] slash Hall Hp).
    destruct seg as [|c seg]; [contradiction Hne; reflexivity|].
    rewrite N.eqb_refl. reflexivity.
Qed.

Lemma not_slash_Forall (name : pystr) :
  Forall (fun c => negb (N.eqb c slash) = true) name <-> slash ∉ name.
Proof.
  rewrite Forall_forall. split.
  - intros H Hin. specialize (H slash Hin). rewrite N.eqb_refl in H. discriminate H.
  - intros H c Hc. destruct (N.eqb_spec c slash) as [->|]; [contradiction|reflexivity].
Qed.

Lemma resolve_download_voice_spec (path name : pystr) :
  resolve path = Some (download_voice name) <->
  path = lit "download-voice/" ++ name ++ [slash] /\ name <> [] /\ slash ∉ name.
Proof.
  unfold resolve. split.
  - case_bool_decide as Hp; [discriminate|].
    destruct (strip_prefix (lit "text-to-speech/") path ≫= segment is_digit); [discriminate|].
    destruct (strip_prefix (lit "download-voice/") path) as [rest|] eqn:Ep;
      cbn [mbind option_bind]; [|discriminate].
    destruct (segment (fun c => negb (N.eqb c slash)) rest) as [nm|] eqn:Es; [|discriminate].
    intros Hres. injection Hres as ->.
    apply strip_prefix_Some in Ep. apply segment_spec in Es; [|reflexivity].
    destruct Es as (Hne & Hall & ->). split; [exact Ep|]. split; [exact Hne|].
    apply not_slash_Forall. exact Hall.
  - intros (-> & Hne & Hns).
    rewrite bool_decide_eq_false_2.
    2: { destruct name; [contradiction Hne; reflexivity|]. discriminate. }
    replace (strip_prefix (lit "text-to-speech/") (lit "download-voice/" ++ name ++ [slash]))
      with (@None pystr) by reflexivity.
    cbn [mbind option_bind]. rewrite strip_prefix_app. cbn [mbind option_bind].
    replace (segment (fun c => negb (N.eqb c slash)) (name ++ [slash])) with (Some name);
      [reflexivity|].
    symmetry. apply segment_spec; [reflexivity|].
    split; [exact Hne|]. split; [|reflexivity]. apply not_slash_Forall. exact Hns.
Qed.

(** X13: a path reaches the download view with a file name exactly when it
    is "download-voice/", the name and a closing slash, and the name is not
    empty and has no slash. *)
Theorem resolve_download_voice_route (path name : pystr) :
  resolve path = Some (download_voice name) <->
  path = lit "download-voice/" ++ name ++ lit "/" /\ name <> [] /\ slash ∉ name.
Proof. exact (resolve_download_voice_spec path name). Qed.

(** X14: a file name that contains a slash passes [validate_request_data]
    when its length is in range, but no path is routed to the download of
    that name. *)
Theorem slash_name_valid_but_unroutable (t name : pystr) (w : World) :
  slash ∈ name ->
  10 <= length t <= 700 ->
  5 <= length name <= 20 ->
  validate_request_data (Some t) (Some name) w = (Return tt, w)
  /\ forall path, resolve path <> Some (download_voice name).
Proof.
  intros Hs Ht Hn. split.
  - apply validate_request_data_valid. exists t, name. auto.
  - intros path H. apply resolve_download_voice_spec in H.
    destruct H as (_ & _ & Hns). contradiction.
Qed.

Lemma slash_name_valid_but_unroutable_witness :
  validate_request_data (Some (lit "Hello world, this is a test")) (Some (lit "en/greet1"))
    empty_world = (Return tt, empty_world)
  /\ resolve (lit "download-voice/en/greet1/") = None.
Proof.
  destruct (slash_name_valid_but_unroutable (lit "Hello world, this is a test")
              (lit "en/greet1") empty_world) as [Hv _].
  - apply list_elem_of_In. vm_compute. tauto.
  - vm_compute. lia.
  - vm_compute. lia.
  - split; [exact Hv | reflexivity].
Defined.



(** ** Logging in *)

Lemma auth_post_valid (authenticate : gmap string (list N) -> Auth.User + list (string * string))
    (generate_key : gmap nat Auth.Token -> string)
    (payload : gmap string (list N)) (user : Auth.User) (now : Z)
    (tokens : gmap nat Auth.Token) :
  authenticate payload = inl user ->
  Auth.post authenticate generate_key payload now tokens =
    match tokens !! Auth.pk user with
    | None =>
        (Return {| Auth.token := generate_key tokens; Auth.user_id := Auth.pk user;
                   Auth.user_name := Auth.username user; Auth.note := "Token created" |},
         <[Auth.pk user := {| Auth.key := generate_key tokens; Auth.created := now |}]> tokens)
    | Some t =>
        (Return {| Auth.token := Auth.key t; Auth.user_id := Auth.pk user;
                   Auth.user_name := Auth.username user; Auth.note := "Token refreshed" |},
         <[Auth.pk user := {| Auth.key := Auth.key t; Auth.created := now |}]> tokens)
    end.
Proof.
  intros Ha. unfold Auth.post, Auth.get_or_create. rewrite Ha.
  destruct (tokens !! Auth.pk user); reflexivity.
Qed.

(** X16: logging in twice gives the same token.  The first login creates a
    token when the user has none and says so; every later login says
    "Token refreshed", returns the key unchanged and only moves the token's
    timestamp to the time of the request. *)
Theorem auth_post_twice_same_key
    (authenticate : gmap string (list N) -> Auth.User + list (string * string))
    (generate_key : gmap nat Auth.Token -> string)
    (payload : gmap string (list N)) (user : Auth.User) (now1 now2 : Z)
    (tokens : gmap nat Auth.Token) :
  authenticate payload = inl user ->
  let first := Auth.post authenticate generate_key payload now1 tokens in
  let second := Auth.post authenticate generate_key payload now2 first.2 in
  exists k note1,
    first.1 = Return {| Auth.token := k; Auth.user_id := Auth.pk user;
                        Auth.user_name := Auth.username user; Auth.note := note1 |}
    /\ (note1 = "Token created" <-> tokens !! Auth.pk user = None)
    /\ second.1 = Return {| Auth.token := k; Auth.user_id := Auth.pk user;
                            Auth.user_name := Auth.username user;
                            Auth.note := "Token refreshed" |}
    /\ second.2 !! Auth.pk user = Some {| Auth.key := k; Auth.created := now2 |}.
Proof.
  intros Ha first second. subst second first.
  rewrite (auth_post_valid authenticate generate_key payload user now1 tokens Ha).
  destruct (tokens !! Auth.pk user) as [t|] eqn:Et; cbn [fst snd].
  - exists (Auth.key t), "Token refreshed".
    rewrite (auth_post_valid authenticate generate_key payload user now2 _ Ha).
    rewrite lookup_insert_eq. cbn [fst snd Auth.key].
    split; [reflexivity|]. split; [split; discriminate|].
    split; [reflexivity|]. apply lookup_insert_eq.
  - exists (generate_key tokens), "Token created".
    rewrite (auth_post_valid authenticate generate_key payload user now2 _ Ha).
    rewrite lookup_insert_eq. cbn [fst snd Auth.key].
    split; [reflexivity|]. split; [split; reflexivity|].
    split; [reflexivity|]. apply lookup_insert_eq.
Qed.

Lemma auth_post_twice_same_key_witness :
  (Auth.post sample_authenticate sample_generate_key alice_login 200
     (Auth.post sample_authenticate sample_generate_key alice_login 100 ∅).2).1
  = Return {| Auth.token := "9944b09199c62bcf9418ad846dd0e4bbdfc6ee4b"; Auth.user_id := 7;
              Auth.user_name := lit "alice"; Auth.note := "Token refreshed" |}.
Proof.
  destruct (auth_post_twice_same_key sample_authenticate sample_generate_key alice_login
              alice 100 200 ∅ eq_refl) as (k & note1 & H1 & _ & H2 & _).
  cbv zeta in H1, H2. rewrite H2. vm_compute in H1. injection H1 as <- _. reflexivity.
Defined.

(** X17: a login touches the token of the user that logs in and of nobody
    else, and a login with credentials the serializer rejects ends in the
    validation error and changes no token. *)
Theorem auth_post_frame
    (authenticate : gmap string (list N) -> Auth.User + list (string * string))
    (generate_key : gmap nat Auth.Token -> string)
    (payload : gmap string (list N)) (now : Z) (tokens : gmap nat Auth.Token) :
  (forall user other, authenticate payload = inl user -> other <> Auth.pk user ->
     (Auth.post authenticate generate_key payload now tokens).2 !! other = tokens !! other)
  /\ (forall errors, authenticate payload = inr errors ->
       Auth.post authenticate generate_key payload now tokens =
         (Raise (serializers_ValidationError errors), tokens)).
Proof.
  split.
  - intros user other Ha Hne.
    rewrite (auth_post_valid authenticate generate_key payload user now tokens Ha).
    destruct (tokens !! Auth.pk user); cbn [snd]; apply lookup_insert_ne; congruence.
  - intros errors Ha. unfold Auth.post. rewrite Ha. reflexivity.
Qed.

Lemma auth_post_frame_witness :
  Auth.post sample_authenticate sample_generate_key
    (<["username" := lit "alice"]> (<["password" := lit "looking-glass"]> ∅)) 100 ∅
  = (Raise (serializers_ValidationError
              [("non_field_errors", "Unable to log in with provided credentials.")]), ∅).
Proof.
  apply (proj2 (auth_post_frame sample_authenticate sample_generate_key
                  (<["username" := lit "alice"]> (<["password" := lit "looking-glass"]> ∅))
                  100 ∅)).
  reflexivity.
Defined.
